(** * pt_pal_editor/src/main.c : event loop, mouse scaling and quit negotiation

    A shallow embedding of [main.c] of the palette editor: the fixed-point
    mouse coordinate mapper ([readMouseXY]), the scale factors computed by
    [setupVideo] in IEEE binary64 arithmetic, the event dispatcher
    ([handleInput]), the quit dialog ([showAskToSaveDialog]) and the frame
    loop of [main].

    Conventions.
    - C integers are [Z] with the wrap-around of each conversion written out.
    - [double] values are [spec_float] at precision 53, exponent bound 1024.
    - The three flags [programRunning], [redrawScreen] and [allowSigterm] are
      [volatile] in the source, so every store to them is an observable
      event; the trace of a run lists those stores and every call that
      [main.c] makes, in program order.
    - [SCREEN_W] and [SCREEN_H] are macros of [gui.h], which is not part of
      the translated file: they are parameters of the definitions. *)

From Stdlib Require Import ZArith List Bool String Lia.
From Stdlib Require Import SpecFloat.
Import ListNotations.
Local Open Scope Z_scope.

(* ================================================================= *)
(** * Part I: the program *)

(** ** Machine integers *)

Module CInt.

(** Conversion to [uint32_t]: reduction modulo 2^32. *)
Definition to_uint32 (z : Z) : Z := z mod 4294967296.

(** Conversion to [int32_t] (two's complement wrap-around). *)
Definition to_int32 (z : Z) : Z := (z + 2147483648) mod 4294967296 - 2147483648.

(** Conversion to [int16_t] (two's complement wrap-around). *)
Definition to_int16 (z : Z) : Z := (z + 32768) mod 65536 - 32768.

End CInt.

(** ** IEEE binary64 arithmetic used by [setupVideo] *)

Module Double.

Definition prec : Z := 53.
Definition emax : Z := 1024.

Definition double : Type := spec_float.

(** [(double)z] for an integer [z]; exact for every 32-bit integer. *)
Definition of_int (z : Z) : double := binary_normalize prec emax z 0 false.

(** The [/] of two doubles, rounded to nearest even. *)
Definition div (a b : double) : double := SFdiv prec emax a b.

(** The [==] of two doubles. *)
Definition eqb (a b : double) : bool := SFeqb a b.

Definition zero : double := S754_zero false.

(** C99 [round]: the nearest integer, halfway cases away from zero.
    The result is integral, so it is returned as an integer; [None]
    stands for an infinity or a NaN, which [round] returns unchanged. *)
Definition round (a : double) : option Z :=
  match a with
  | S754_zero _ => Some 0
  | S754_finite s m e =>
      let magnitude :=
        match e with
        | Zneg p =>
            let q := Z.shiftr (Zpos m) (Zpos p) in
            if Z.testbit (Zpos m) (Zpos p - 1) then q + 1 else q
        | _ => Z.shiftl (Zpos m) e
        end in
      Some (if s then - magnitude else magnitude)
  | S754_infinity _ => None
  | S754_nan => None
  end.

(** [(uint32_t)] of an integral double.  The conversion is undefined in C
    when the value does not fit ([None]). *)
Definition to_uint32 (r : option Z) : option Z :=
  match r with
  | Some z => if (0 <=? z) && (z <? 4294967296) then Some z else None
  | None => None
  end.

End Double.

(** ** Coordinate mapper: the arithmetic of [readMouseXY] *)

Module Mapper.
Import CInt.

(** Lines 102-103: [if (mx < 0) mx = 0;]. *)
Definition clampNegative (raw : Z) : Z := if raw <? 0 then 0 else raw.

(** Lines 105-106:
    [mx = (((uint32_t)mx * input.mouse.xScaleMul) + (1 << 15)) >> 16;]
    The multiplier is a [uint32_t] field (line 305 stores a [uint32_t]
    into it), so the product and the sum are computed in [uint32_t]; the
    shifted value is stored back into the [int32_t] variable. *)
Definition scaleFixed (mul v : Z) : Z :=
  to_int32
    (Z.shiftr (to_uint32 (to_uint32 (to_uint32 v * mul) + Z.shiftl 1 15)) 16).

(** Lines 108-109: [if (mx >= SCREEN_W) mx = SCREEN_W - 1;]. *)
Definition clampHigh (dim v : Z) : Z := if v >=? dim then dim - 1 else v.

(** The value of [mx] just before the upper clamp. *)
Definition scaledCoord (mul raw : Z) : Z := scaleFixed mul (clampNegative raw).

(** Lines 102-111 for one axis: the value stored in [input.mouse.x]. *)
Definition mapCoord (dim mul raw : Z) : Z :=
  to_int16 (clampHigh dim (scaledCoord mul raw)).

(** Lines 302 and 305 of [setupVideo] for one axis:
    [dScaleX = w / (double)SCREEN_W;]
    [xScaleMul = (dScaleX == 0.0) ? 65536 : (uint32_t)round(65536.0 / dScaleX);]
    [None] when the final conversion is undefined. *)
Definition scaleMul (dim w : Z) : option Z :=
  let dScale := Double.div (Double.of_int w) (Double.of_int dim) in
  if Double.eqb dScale Double.zero then Some 65536
  else Double.to_uint32 (Double.round (Double.div (Double.of_int 65536) dScale)).

End Mapper.

(** ** Events, platform answers and program state *)

Module Model.
Import Mapper.

(** The three [volatile] flags of line 30. *)
Inductive flag : Type :=
  | ProgramRunning
  | RedrawScreen
  | AllowSigterm.

(** Calls into SDL2 and libc.  They do not touch the program's globals;
    what they return comes from the platform (see [Platform], [Tick] and
    the dialog oracle below). *)
Inductive libcall : Type :=
  | SDL_Init
  | SDL_CreateWindow (w h : Z)
  | SDL_CreateRenderer
  | SDL_RenderSetLogicalSize (w h : Z)
  | SDL_RenderSetIntegerScale
  | SDL_SetRenderDrawBlendMode
  | SDL_SetHint
  | SDL_CreateTexture (w h : Z)
  | SDL_SetTextureBlendMode
  | Malloc_frameBuffer
  | SDL_GetWindowSize
  | SDL_ShowSimpleMessageBox (text : string)
  | SDL_PumpEvents
  | SDL_GetMouseState
  | SDL_PollEvent
  | SDL_ShowMessageBox
  | SDL_UpdateTexture
  | SDL_RenderClear
  | SDL_RenderCopy
  | SDL_RenderPresent
  | SDL_Delay (ms : Z)
  | Free_loadedFile
  | Free_frameBuffer
  | SDL_Quit.

(** Calls into the rest of the editor ([gui.c], [palette.c]), whose bodies
    are not part of the translated file. *)
Inductive guicall : Type :=
  | setupGUI
  | keyDownHandler (sym : Z)
  | mouseButtonUpHandler
  | mouseButtonDownHandler
  | handleSlidersHeldDown
  | handleRainbowHeldDown
  | handleRainbowUpDownButtons
  | savePalette (target : Z).

(** What [main.c] does, in program order. *)
Inductive event : Type :=
  | Store (f : flag) (b : bool)
  | Lib (c : libcall)
  | Gui (c : guicall).

(** The events [handleInput] looks at. *)
Inductive SDL_Event : Type :=
  | SDL_QUIT
  | SDL_KEYDOWN (sym : Z)
  | SDL_MOUSEBUTTONUP (button : Z)
  | SDL_MOUSEBUTTONDOWN (button : Z)
  | SDL_OTHER.

Definition SDL_BUTTON_LEFT : Z := 1.

(** The outcome of [SDL_ShowMessageBox]: a negative return value, or the
    identifier of the button written to [whichButtonPressed].  The table of
    lines 119-123 gives "No" the identifier 0 and "Yes" the identifier 1. *)
Inductive MsgBoxResult : Type :=
  | MsgBoxFailed
  | MsgBoxButton (id : Z).

Definition buttonNo : Z := 0.
Definition buttonYes : Z := 1.

(** What the platform answers during [setupVideo]. *)
Record Platform : Type := mkPlatform {
  sdl_patchlevel : Z;
  init_result : Z;
  window_ok : bool;
  renderer_ok : bool;
  texture_ok : bool;
  malloc_ok : bool;
  window_w : Z;
  window_h : Z
}.

(** What the platform delivers during one pass of the frame loop: the raw
    pointer position and the events queued when [handleInput] drains. *)
Record Tick : Type := mkTick {
  raw_mx : Z;
  raw_my : Z;
  queue : list SDL_Event
}.

(** The globals [main.c] reads or writes, the state of the other modules
    ([world]) and the trace so far. *)
Record State (World : Type) : Type := mkState {
  programRunning : bool;
  redrawScreen : bool;
  allowSigterm : bool;
  mouse_x : Z;
  mouse_y : Z;
  xScaleMul : Z;
  yScaleMul : Z;
  frameBuffer : bool;
  configIsSaved : bool;
  loadedFile : bool;
  world : World;
  trace : list event
}.

Arguments mkState {World}.
Arguments programRunning {World}.
Arguments redrawScreen {World}.
Arguments allowSigterm {World}.
Arguments mouse_x {World}.
Arguments mouse_y {World}.
Arguments xScaleMul {World}.
Arguments yScaleMul {World}.
Arguments frameBuffer {World}.
Arguments configIsSaved {World}.
Arguments loadedFile {World}.
Arguments world {World}.
Arguments trace {World}.

(** How a run of [main] ends. *)
Inductive Exit (World : Type) : Type :=
  | Returned (code : Z) (st : State World)
  | StillRunning
  | UndefinedBehaviour.

Arguments Returned {World}.
Arguments StillRunning {World}.
Arguments UndefinedBehaviour {World}.

Section Program.

Context {World : Type}.

(** The macros of [gui.h]. *)
Variable SCREEN_W SCREEN_H : Z.

(** The bodies of the routines of [gui.c] and [palette.c]: any function of
    the globals. *)
Variable extern : guicall -> State World -> State World.

(** The answer of [SDL_ShowMessageBox], which may depend on everything that
    happened before. *)
Variable msgBoxAnswer : list event -> MsgBoxResult.

Definition set_trace (t : list event) (st : State World) : State World :=
  mkState (programRunning st) (redrawScreen st) (allowSigterm st)
    (mouse_x st) (mouse_y st) (xScaleMul st) (yScaleMul st)
    (frameBuffer st) (configIsSaved st) (loadedFile st) (world st) t.

Definition set_flag (f : flag) (b : bool) (st : State World) : State World :=
  mkState
    (match f with ProgramRunning => b | _ => programRunning st end)
    (match f with RedrawScreen => b | _ => redrawScreen st end)
    (match f with AllowSigterm => b | _ => allowSigterm st end)
    (mouse_x st) (mouse_y st) (xScaleMul st) (yScaleMul st)
    (frameBuffer st) (configIsSaved st) (loadedFile st) (world st) (trace st).

Definition set_mouse (x y : Z) (st : State World) : State World :=
  mkState (programRunning st) (redrawScreen st) (allowSigterm st)
    x y (xScaleMul st) (yScaleMul st)
    (frameBuffer st) (configIsSaved st) (loadedFile st) (world st) (trace st).

Definition set_scale (mx my : Z) (st : State World) : State World :=
  mkState (programRunning st) (redrawScreen st) (allowSigterm st)
    (mouse_x st) (mouse_y st) mx my
    (frameBuffer st) (configIsSaved st) (loadedFile st) (world st) (trace st).

Definition set_frameBuffer (b : bool) (st : State World) : State World :=
  mkState (programRunning st) (redrawScreen st) (allowSigterm st)
    (mouse_x st) (mouse_y st) (xScaleMul st) (yScaleMul st)
    b (configIsSaved st) (loadedFile st) (world st) (trace st).

Definition log (e : event) (st : State World) : State World :=
  set_trace (trace st ++ [e]) st.

(** A store to one of the volatile flags. *)
Definition store (f : flag) (b : bool) (st : State World) : State World :=
  log (Store f b) (set_flag f b st).

(** A call into SDL2 or libc. *)
Definition lib (c : libcall) (st : State World) : State World :=
  log (Lib c) st.

(** A call into [gui.c] or [palette.c]: the call is recorded and the body
    runs on the globals. *)
Definition gui (c : guicall) (st : State World) : State World :=
  set_trace (trace st ++ [Gui c]) (extern c st).

(** The state at program start: [allowSigterm] is initialised to [true]
    (line 30), the other globals of [main.c] are zero. *)
Definition initState (saved loaded : bool) (w : World) : State World :=
  mkState false false true 0 0 0 0 false saved loaded w [].

(** Lines 95-113. *)
Definition readMouseXY (mx my : Z) (st : State World) : State World :=
  let st := lib SDL_PumpEvents st in
  let st := lib SDL_GetMouseState st in
  set_mouse (mapCoord SCREEN_W (xScaleMul st) mx)
            (mapCoord SCREEN_H (yScaleMul st) my) st.

(** Lines 115-147. *)
Definition showAskToSaveDialog (st : State World) : State World :=
  let answer := msgBoxAnswer (trace st) in
  let st := lib SDL_ShowMessageBox st in
  match answer with
  | MsgBoxFailed =>
      let st := store AllowSigterm true st in
      store ProgramRunning false st
  | MsgBoxButton id =>
      let st := if id =? 1 then gui (savePalette 0) st else st in
      store ProgramRunning false st
  end.

(** Lines 149-161: the formatted text goes to a simple message box; the
    format string stands for the text. *)
Definition showErrorMsgBox (fmt : string) (st : State World) : State World :=
  lib (SDL_ShowSimpleMessageBox fmt) st.

(** Lines 169-194: the body of the polling loop for one event. *)
Definition dispatch (ev : SDL_Event) (st : State World) : State World :=
  match ev with
  | SDL_QUIT =>
      if allowSigterm st then
        if negb (configIsSaved st) then
          let st := store AllowSigterm false st in
          showAskToSaveDialog st
        else
          store ProgramRunning false st
      else st
  | SDL_KEYDOWN sym => gui (keyDownHandler sym) st
  | SDL_MOUSEBUTTONUP button =>
      if button =? SDL_BUTTON_LEFT then gui mouseButtonUpHandler st else st
  | SDL_MOUSEBUTTONDOWN button =>
      if button =? SDL_BUTTON_LEFT then gui mouseButtonDownHandler st else st
  | SDL_OTHER => st
  end.

(** Lines 167-195: [while (SDL_PollEvent(&inputEvent)) ...], one poll per
    queued event and a last one that finds the queue empty. *)
Fixpoint pollLoop (q : list SDL_Event) (st : State World) : State World :=
  match q with
  | [] => lib SDL_PollEvent st
  | ev :: q' => pollLoop q' (dispatch ev (lib SDL_PollEvent st))
  end.

(** Lines 163-200. *)
Definition handleInput (q : list SDL_Event) (st : State World) : State World :=
  let st := pollLoop q st in
  let st := gui handleSlidersHeldDown st in
  let st := gui handleRainbowHeldDown st in
  gui handleRainbowUpDownButtons st.

(** Lines 79-82. *)
Definition present (st : State World) : State World :=
  let st := lib SDL_UpdateTexture st in
  let st := lib SDL_RenderClear st in
  let st := lib SDL_RenderCopy st in
  lib SDL_RenderPresent st.

(** Lines 74-83. *)
Definition redrawIfPending (st : State World) : State World :=
  if redrawScreen st then present (store RedrawScreen false st) else st.

(** Line 85: the argument of [SDL_Delay], an [int] division. *)
Definition frameDelay : Z := 1000 / 60 + 1.

(** Lines 71-85: one pass through the body of the frame loop. *)
Definition frame (t : Tick) (st : State World) : State World :=
  let st := readMouseXY (raw_mx t) (raw_my t) st in
  let st := handleInput (queue t) st in
  let st := redrawIfPending st in
  lib (SDL_Delay frameDelay) st.

(** Lines 69-86: [while (programRunning) ...].  Each pass consumes what the
    platform delivers for it; [None] when the flag is still set after the
    last delivered pass. *)
Fixpoint frameLoop (ticks : list Tick) (st : State World) : option (State World) :=
  if programRunning st then
    match ticks with
    | [] => None
    | t :: ticks' => frameLoop ticks' (frame t st)
    end
  else Some st.

(** Lines 238-309.  [Some (false, _)] and [Some (true, _)] are the two
    return values; [None] is an undefined conversion at lines 305-306. *)
Definition setupVideo (p : Platform) (st : State World)
  : option (bool * State World) :=
  let st := lib SDL_Init st in
  if negb (init_result p =? 0) then
    Some (false, showErrorMsgBox "Couldn't initialize SDL: %s" st)
  else
  let st := lib (SDL_CreateWindow (SCREEN_W * 2) (SCREEN_H * 2)) st in
  if negb (window_ok p) then
    Some (false, showErrorMsgBox "Couldn't create an SDL2 window: %s" st)
  else
  let st := lib SDL_CreateRenderer st in
  if negb (renderer_ok p) then
    Some (false, showErrorMsgBox "Couldn't create an SDL2 renderer: %s" st)
  else
  let st := lib (SDL_RenderSetLogicalSize SCREEN_W SCREEN_H) st in
  let st := if 5 <=? sdl_patchlevel p
            then lib SDL_RenderSetIntegerScale st else st in
  let st := lib SDL_SetRenderDrawBlendMode st in
  let st := lib SDL_SetHint st in
  let st := lib (SDL_CreateTexture SCREEN_W SCREEN_H) st in
  if negb (texture_ok p) then
    Some (false, showErrorMsgBox "Couldn't create an SDL2 texture: %s" st)
  else
  let st := lib SDL_SetTextureBlendMode st in
  let st := set_frameBuffer (malloc_ok p) (lib Malloc_frameBuffer st) in
  if negb (malloc_ok p) then
    Some (false, showErrorMsgBox "Out of memory!" st)
  else
  let st := lib SDL_GetWindowSize st in
  match scaleMul SCREEN_W (window_w p), scaleMul SCREEN_H (window_h p) with
  | Some mx, Some my => Some (true, set_scale mx my st)
  | _, _ => None
  end.

(** Lines 88-90. *)
Definition shutdown (st : State World) : State World :=
  let st := if loadedFile st then lib Free_loadedFile st else st in
  let st := lib Free_frameBuffer st in
  lib SDL_Quit st.

(** Lines 65-68: from the return of [setupVideo] to the loop test. *)
Definition enterLoop (st : State World) : State World :=
  let st := gui setupGUI st in
  let st := store RedrawScreen true st in
  store ProgramRunning true st.

(** Lines 45-93.  The working-directory bootstrap of line 56, compiled on
    macOS only, is left out. *)
Definition main (p : Platform) (ticks : list Tick) (st : State World)
  : Exit World :=
  match setupVideo p st with
  | None => UndefinedBehaviour
  | Some (false, st) => Returned 0 (lib SDL_Quit st)
  | Some (true, st) =>
      match frameLoop ticks (enterLoop st) with
      | None => StillRunning
      | Some st => Returned 0 (shutdown st)
      end
  end.

End Program.

End Model.

(** ** Vocabulary of the specification *)

Module Spec.
Import Model.

(** The quit-guard of the specification is the source's flag
    [allowSigterm].  Quit signals are honoured while the flag is true; the
    guard is engaged, and suppresses them, while the flag is false. *)
Definition guardEngaged {World : Type} (st : State World) : Prop :=
  allowSigterm st = false.

(** No pass of the loop continues with the guard engaged: whenever quit
    signals are suppressed the loop has been told to stop. *)
Definition guardInvariant {World : Type} (st : State World) : Prop :=
  allowSigterm st = false -> programRunning st = false.

(** The confirmation dialog. *)
Definition isModal (e : event) : bool :=
  match e with
  | Lib SDL_ShowMessageBox => true
  | _ => false
  end.

(** A call of the save routine. *)
Definition isSave (e : event) : bool :=
  match e with
  | Gui (savePalette _) => true
  | _ => false
  end.

(** The upload and present calls of lines 79-82. *)
Definition isRender (e : event) : bool :=
  match e with
  | Lib SDL_UpdateTexture => true
  | Lib SDL_RenderClear => true
  | Lib SDL_RenderCopy => true
  | Lib SDL_RenderPresent => true
  | _ => false
  end.

Definition isDelay (e : event) : bool :=
  match e with
  | Lib (SDL_Delay _) => true
  | _ => false
  end.

Definition renderCalls : list event :=
  [Lib SDL_UpdateTexture; Lib SDL_RenderClear; Lib SDL_RenderCopy;
   Lib SDL_RenderPresent].

(** The first initialisation step of [setupVideo] that fails, by the text
    of its error dialog, in the order of lines 250-298. *)
Definition initFailure (p : Platform) : option string :=
  if negb (init_result p =? 0) then Some "Couldn't initialize SDL: %s"%string
  else if negb (window_ok p) then Some "Couldn't create an SDL2 window: %s"%string
  else if negb (renderer_ok p) then Some "Couldn't create an SDL2 renderer: %s"%string
  else if negb (texture_ok p) then Some "Couldn't create an SDL2 texture: %s"%string
  else if negb (malloc_ok p) then Some "Out of memory!"%string
  else None.

(** The routines of the other modules leave the two quit flags alone. *)
Definition keepsQuitFlags {World : Type}
  (extern : guicall -> State World -> State World) : Prop :=
  forall c st,
    programRunning (extern c st) = programRunning st /\
    allowSigterm (extern c st) = allowSigterm st.

(** The routines of the other modules may raise the redraw flag but never
    lower it. *)
Definition keepsRedrawPending {World : Type}
  (extern : guicall -> State World -> State World) : Prop :=
  forall c st, redrawScreen st = true -> redrawScreen (extern c st) = true.

(** The events an operation appends, all of them satisfying [P]. *)
Definition emits {World : Type} (P : event -> bool) (st st' : State World)
  : Prop :=
  exists new, trace st' = trace st ++ new /\ forallb P new = true.

(** Neither an upload or present call nor a sleep. *)
Definition isQuiet (e : event) : bool :=
  negb (isRender e) && negb (isDelay e).

End Spec.

(** ** A small instance of the other modules, for running the program *)

Module Sample.
Import Model.

(** Saving marks the configuration saved; every handler of the GUI asks for
    a redraw; nothing else changes. *)
Definition extern (c : guicall) (st : State unit) : State unit :=
  match c with
  | savePalette _ =>
      mkState (programRunning st) (redrawScreen st) (allowSigterm st)
        (mouse_x st) (mouse_y st) (xScaleMul st) (yScaleMul st)
        (frameBuffer st) true (loadedFile st) (world st) (trace st)
  | setupGUI => st
  | _ => set_flag RedrawScreen true st
  end.

Definition answerYes : list event -> MsgBoxResult := fun _ => MsgBoxButton buttonYes.
Definition answerNo : list event -> MsgBoxResult := fun _ => MsgBoxButton buttonNo.
Definition answerFailed : list event -> MsgBoxResult := fun _ => MsgBoxFailed.

(** A running editor with unsaved colours, on a 128 x 64 canvas shown in a
    256 x 128 window. *)
Definition unsaved : State unit :=
  mkState true false true 0 0 32768 32768 true false false tt [].

(** The same editor with its colours saved. *)
Definition saved : State unit :=
  mkState true false true 0 0 32768 32768 true true false tt [].

(** A platform on which every initialisation step succeeds. *)
Definition platform : Platform :=
  mkPlatform 9 0 true true true true 256 128.

(** A platform on which the renderer cannot be created. *)
Definition noRenderer : Platform :=
  mkPlatform 9 0 true false true true 256 128.

(** The pointer at the last column, and a quit signal. *)
Definition quitTick : Tick := mkTick 255 0 [SDL_QUIT].

(** The pointer left of the window, a key and a click. *)
Definition busyTick : Tick :=
  mkTick (-3) 40 [SDL_KEYDOWN 97; SDL_MOUSEBUTTONDOWN 1; SDL_MOUSEBUTTONUP 3].

End Sample.

(** ** The [CLAMP] macro *)

Module Macros.

(** Line 23:
    [#define CLAMP(x, low, high)
       (((x) > (high)) ? (high) : (((x) < (low)) ? (low) : (x)))]. *)
Definition CLAMP (x low high : Z) : Z :=
  if x >? high then high else if x <? low then low else x.

End Macros.

(** ** The macOS working-directory bootstrap *)

Module MacOS.
Import Ascii CInt.

(** The libc calls of lines 215-232, in program order. *)
Inductive oscall : Type :=
  | Strdup
  | Chdir (path : list Ascii.ascii)
  | Free.

Definition slash : Ascii.ascii := "/"%char.

(** Lines 220-227: [for (i = tmpPathLen-1; i >= 0; i--)], looking for the
    last ['/'].  [scanBack s k] inspects the indices [k-1], ..., [0] and
    returns the first one that holds a slash. *)
Fixpoint scanBack (s : list Ascii.ascii) (k : nat) : option nat :=
  match k with
  | O => None
  | S i =>
      if Ascii.eqb (nth i s Ascii.zero) slash then Some i else scanBack s i
  end.

(** Lines 219-227: the string left in [tmpPath].  [strlen] is stored in an
    [int32_t]; writing the terminator at index [i] leaves the first [i]
    characters. *)
Definition cutProgramName (s : list Ascii.ascii) : list Ascii.ascii :=
  let tmpPathLen := to_int32 (Z.of_nat (List.length s)) in
  match scanBack s (Z.to_nat tmpPathLen) with
  | Some i => firstn i s
  | None => s
  end.

(** The literal of line 230. *)
Definition upThree : list Ascii.ascii :=
  list_ascii_of_string "../../../".

(** Lines 204-235.  [argv0] is [None] for a null pointer; [strdup_ok] tells
    whether [strdup] returned a copy. *)
Definition osxSetDirToProgramDirFromArgs
  (argv0 : option (list Ascii.ascii)) (strdup_ok : bool) : list oscall :=
  match argv0 with
  | Some s =>
      if Ascii.eqb (nth 0 s Ascii.zero) slash then
        if strdup_ok then
          [Strdup; Chdir (cutProgramName s); Chdir upThree; Free]
        else [Strdup]
      else []
  | None => []
  end.

End MacOS.

(** ** Observations on traces *)

Module Observe.
Import Model.

(** The error dialog of [showErrorMsgBox]. *)
Definition isErrorDialog (e : event) : bool :=
  match e with
  | Lib (SDL_ShowSimpleMessageBox _) => true
  | _ => false
  end.

(** The calls [setupVideo] can make, and the [SDL_Quit] that follows a
    failed setup. *)
Definition isStartupCall (e : event) : bool :=
  match e with
  | Lib SDL_Init => true
  | Lib (SDL_CreateWindow _ _) => true
  | Lib SDL_CreateRenderer => true
  | Lib (SDL_RenderSetLogicalSize _ _) => true
  | Lib SDL_RenderSetIntegerScale => true
  | Lib SDL_SetRenderDrawBlendMode => true
  | Lib SDL_SetHint => true
  | Lib (SDL_CreateTexture _ _) => true
  | Lib SDL_SetTextureBlendMode => true
  | Lib Malloc_frameBuffer => true
  | Lib SDL_GetWindowSize => true
  | Lib (SDL_ShowSimpleMessageBox _) => true
  | Lib SDL_Quit => true
  | _ => false
  end.

Definition isWindowQuery (e : event) : bool :=
  match e with
  | Lib SDL_GetWindowSize => true
  | _ => false
  end.

(** A call [setupVideo] makes before it fails or asks for the window
    size. *)
Definition isSetupStep (e : event) : bool :=
  isStartupCall e && negb (isErrorDialog e) && negb (isWindowQuery e)
  && negb (match e with Lib SDL_Quit => true | _ => false end).

(** A call [setupVideo] can make. *)
Definition isSetupCall (e : event) : bool :=
  isStartupCall e && negb (match e with Lib SDL_Quit => true | _ => false end).

(** A call of one of the three input handlers of [gui.c]. *)
Definition isInputHandlerCall (e : event) : bool :=
  match e with
  | Gui (keyDownHandler _) => true
  | Gui mouseButtonUpHandler => true
  | Gui mouseButtonDownHandler => true
  | _ => false
  end.

(** The handler call an event of the queue is forwarded to, if any. *)
Definition forwarded (ev : SDL_Event) : list event :=
  match ev with
  | SDL_KEYDOWN sym => [Gui (keyDownHandler sym)]
  | SDL_MOUSEBUTTONUP button =>
      if button =? SDL_BUTTON_LEFT then [Gui mouseButtonUpHandler] else []
  | SDL_MOUSEBUTTONDOWN button =>
      if button =? SDL_BUTTON_LEFT then [Gui mouseButtonDownHandler] else []
  | SDL_QUIT => []
  | SDL_OTHER => []
  end.

Definition isPoll (e : event) : bool :=
  match e with
  | Lib SDL_PollEvent => true
  | _ => false
  end.

Definition isStore (e : event) : bool :=
  match e with
  | Store _ _ => true
  | _ => false
  end.

Definition isQuitCall (e : event) : bool :=
  match e with
  | Lib SDL_Quit => true
  | _ => false
  end.

Definition isFreeFrameBuffer (e : event) : bool :=
  match e with
  | Lib Free_frameBuffer => true
  | _ => false
  end.

(** What one pass of the frame loop can do: the calls of [readMouseXY]
    and [handleInput], the stores that stop the loop, engage or release
    the guard or clear the redraw flag, the upload and present calls and
    the sleep. *)
Definition isPassEvent (e : event) : bool :=
  match e with
  | Store ProgramRunning b => negb b
  | Store RedrawScreen b => negb b
  | Store AllowSigterm _ => true
  | Lib SDL_PumpEvents => true
  | Lib SDL_GetMouseState => true
  | Lib SDL_PollEvent => true
  | Lib SDL_ShowMessageBox => true
  | Lib SDL_UpdateTexture => true
  | Lib SDL_RenderClear => true
  | Lib SDL_RenderCopy => true
  | Lib SDL_RenderPresent => true
  | Lib (SDL_Delay _) => true
  | Gui setupGUI => false
  | Gui _ => true
  | _ => false
  end.

Definition isQuitEvent (ev : SDL_Event) : bool :=
  match ev with
  | SDL_QUIT => true
  | _ => false
  end.

(** Neither the confirmation dialog nor a call of the save routine. *)
Definition isCalm (e : event) : bool :=
  negb (Spec.isModal e) && negb (Spec.isSave e).

(** No dialog, no call of the save routine and no store to a flag. *)
Definition isIdle (e : event) : bool :=
  isCalm e && negb (isStore e).

(** From [a] to [b] the confirmation dialog was shown at most once, the
    save routine was called at most as often as the dialog was shown, and
    if the dialog was shown the loop has been told to stop. *)
Definition asksAtMostOnce {World : Type} (a b : State World) : Prop :=
  exists new,
    trace b = trace a ++ new /\
    (List.length (filter Spec.isModal new) <= 1)%nat /\
    (List.length (filter Spec.isSave new)
     <= List.length (filter Spec.isModal new))%nat /\
    (filter Spec.isModal new <> [] -> programRunning b = false).

(** A pass whose queue holds no quit signal. *)
Definition quitFree (t : Tick) : Prop := ~ In SDL_QUIT (queue t).

(** The dialog can always be shown. *)
Definition neverFails (answer : list event -> MsgBoxResult) : Prop :=
  forall tr, answer tr <> MsgBoxFailed.

Section Passes.

Context {World : Type}.
Variable SCREEN_W SCREEN_H : Z.
Variable extern : guicall -> State World -> State World.
Variable msgBoxAnswer : list event -> MsgBoxResult.

(** The passes of the loop body over the delivered ticks, one after the
    other, without the loop test. *)
Definition passes (ticks : list Tick) (st : State World) : State World :=
  fold_left (fun s t => frame SCREEN_W SCREEN_H extern msgBoxAnswer t s)
    ticks st.

End Passes.

End Observe.

(* ================================================================= *)
(** * Part II: properties *)

(** ** Machine integers *)

Module CIntFacts.
Import CInt.

Lemma to_uint32_range z : 0 <= to_uint32 z < 4294967296.
Proof. unfold to_uint32. apply Z.mod_pos_bound. lia. Qed.

Lemma to_uint32_small z : 0 <= z < 4294967296 -> to_uint32 z = z.
Proof. intros H. unfold to_uint32. apply Z.mod_small. exact H. Qed.

Lemma to_int32_small z : -2147483648 <= z < 2147483648 -> to_int32 z = z.
Proof. intros H. unfold to_int32. rewrite Z.mod_small; lia. Qed.

Lemma to_int16_small z : -32768 <= z < 32768 -> to_int16 z = z.
Proof. intros H. unfold to_int16. rewrite Z.mod_small; lia. Qed.

End CIntFacts.

(** ** Binary64 division of an integer by itself *)

Module DoubleFacts.
Import Double.

Lemma digits2_pos_size p : digits2_pos p = Pos.size p.
Proof. induction p; simpl; congruence. Qed.

Lemma digits2_pos_iter_xO p k :
  digits2_pos (Pos.iter xO p k) = (digits2_pos p + k)%positive.
Proof.
  induction k using Pos.peano_ind.
  - simpl. lia.
  - rewrite Pos.iter_succ. simpl. rewrite IHk. lia.
Qed.

Lemma fexp_normal e : -1021 <= e -> fexp prec emax e = e - 53.
Proof. intros H. unfold fexp, emin, prec, emax. lia. Qed.

(** A 53-bit mantissa with an exponent in range is already rounded. *)
Lemma round_aux_canonical s m e :
  Zpos (digits2_pos m) = 53 -> -1074 <= e <= 971 ->
  binary_round_aux prec emax s (Zpos m) e loc_Exact = S754_finite s m e.
Proof.
  intros Hd He.
  unfold binary_round_aux, shr_fexp.
  cbn [Zdigits2 shr_record_of_loc].
  rewrite Hd.
  rewrite fexp_normal by lia.
  replace (53 + e - 53 - e) with 0 by lia.
  cbn [shr shr_m loc_of_shr_record round_nearest_even Zdigits2 shr_record_of_loc].
  rewrite Hd.
  rewrite fexp_normal by lia.
  replace (53 + e - 53 - e) with 0 by lia.
  cbn [shr shr_m].
  unfold emax, prec.
  destruct (Z.leb_spec e (1024 - 53)); [reflexivity | lia].
Qed.

Lemma digits2_pos_bound p : Zpos p < 2 ^ 53 -> Zpos (digits2_pos p) <= 53.
Proof.
  intros H. rewrite digits2_pos_size.
  destruct (Z.le_gt_cases (Zpos (Pos.size p)) 53) as [Hle|Hgt]; [exact Hle|].
  exfalso.
  pose proof (Pos.size_le p) as Hs.
  assert (H2 : 2 ^ 54 <= 2 ^ Zpos (Pos.size p)).
  { apply Z.pow_le_mono_r; lia. }
  assert (H3 : 2 ^ Zpos (Pos.size p) <= Zpos (p~0)).
  { rewrite <- Pos2Z.inj_pow. exact Hs. }
  change (2 ^ 53) with 9007199254740992 in H.
  change (2 ^ 54) with 18014398509481984 in H2.
  lia.
Qed.

(** The conversion of a positive integer below 2^53 is a positive finite
    double. *)
Lemma of_int_finite d :
  0 < d < 2 ^ 53 ->
  exists m e, of_int d = S754_finite false m e.
Proof.
  intros [Hpos Hlt].
  destruct d as [|p|p]; try lia.
  pose proof (digits2_pos_bound p Hlt) as Hn.
  unfold of_int, binary_normalize, binary_round.
  rewrite Z.add_0_r.
  rewrite fexp_normal by lia.
  unfold shl_align.
  rewrite Z.sub_0_r.
  destruct (Zpos (digits2_pos p) - 53) as [|k|k] eqn:Hk; try lia.
  - exists p, 0. apply round_aux_canonical; lia.
  - exists (Pos.iter xO p k), (Zneg k).
    apply round_aux_canonical; [|lia].
    rewrite digits2_pos_iter_xO. lia.
Qed.

Lemma shiftl_div_eucl_same m :
  Z.div_eucl (Z.shiftl (Zpos m) 53) (Zpos m) = (9007199254740992, 0).
Proof.
  rewrite Z.shiftl_mul_pow2 by lia.
  change (2 ^ 53) with 9007199254740992.
  assert (Hd : (Zpos m * 9007199254740992) / Zpos m = 9007199254740992).
  { rewrite Z.mul_comm. apply Z.div_mul. lia. }
  assert (Hm : (Zpos m * 9007199254740992) mod Zpos m = 0).
  { rewrite Z.mul_comm. apply Z.mod_mul. lia. }
  unfold Z.div, Z.modulo in Hd, Hm.
  destruct (Z.div_eucl (Zpos m * 9007199254740992) (Zpos m)) as [q r].
  simpl in Hd, Hm. congruence.
Qed.

(** A finite double divided by itself is exactly 1.0. *)
Lemma div_same s m e :
  div (S754_finite s m e) (S754_finite s m e)
  = S754_finite false 4503599627370496 (-52).
Proof.
  unfold div, SFdiv, SFdiv_core_binary.
  rewrite xorb_nilpotent.
  replace (Zdigits2 (Zpos m) + e - (Zdigits2 (Zpos m) + e)) with 0 by lia.
  replace (e - e) with 0 by lia.
  change (Z.min (fexp prec emax 0) 0) with (-53).
  change (0 - -53) with 53.
  cbv beta iota zeta.
  rewrite shiftl_div_eucl_same.
  assert (Hl : new_location (Zpos m) 0 = loc_Exact).
  { unfold new_location, new_location_even, new_location_odd.
    destruct (Z.even (Zpos m)); reflexivity. }
  rewrite Hl.
  reflexivity.
Qed.

Example round_half_away :
  round (div (of_int 5) (of_int 2)) = Some 3 /\
  round (div (of_int (-5)) (of_int 2)) = Some (-3) /\
  round (div (of_int 1) (of_int 2)) = Some 1 /\
  round (div (of_int 2) (of_int 5)) = Some 0 /\
  round (div (of_int 7) (of_int 1)) = Some 7 /\
  round (div (of_int 1) (of_int 0)) = None.
Proof. vm_compute. repeat split. Qed.

Example scaleMul_samples :
  Mapper.scaleMul 128 256 = Some 32768 /\
  Mapper.scaleMul 64 0 = Some 65536 /\
  Mapper.scaleMul 320 641 = Some 32717 /\
  Mapper.scaleMul 128 (-5) = None.
Proof. vm_compute. repeat split. Qed.

(** Lines 302-305 when the window is as wide as the canvas. *)
Lemma scaleMul_same dim :
  0 < dim < 2 ^ 53 -> Mapper.scaleMul dim dim = Some 65536.
Proof.
  intros H.
  destruct (of_int_finite dim H) as (m & e & Hm).
  unfold Mapper.scaleMul.
  rewrite Hm, div_same.
  reflexivity.
Qed.

End DoubleFacts.

(** ** Coordinate mapper *)

Module MapperFacts.
Import CInt CIntFacts Mapper.

Lemma clampNegative_nonneg raw : 0 <= clampNegative raw.
Proof. unfold clampNegative. destruct (Z.ltb_spec raw 0); lia. Qed.

Lemma clampNegative_of_negative raw : raw < 0 -> clampNegative raw = 0.
Proof. intros H. unfold clampNegative. destruct (Z.ltb_spec raw 0); lia. Qed.

Lemma clampNegative_id raw : 0 <= raw -> clampNegative raw = raw.
Proof. intros H. unfold clampNegative. destruct (Z.ltb_spec raw 0); lia. Qed.

(** Whatever the multiplier, the shifted value has at most 16 bits. *)
Lemma scaleFixed_range mul v : 0 <= scaleFixed mul v < 65536.
Proof.
  unfold scaleFixed.
  set (u := to_uint32 (to_uint32 (to_uint32 v * mul) + Z.shiftl 1 15)).
  assert (Hu : 0 <= u < 4294967296) by apply to_uint32_range.
  rewrite Z.shiftr_div_pow2 by lia.
  change (2 ^ 16) with 65536.
  assert (Hq : 0 <= u / 65536 < 65536).
  { split.
    - apply Z.div_pos; lia.
    - apply Z.div_lt_upper_bound; lia. }
  rewrite to_int32_small; lia.
Qed.

Lemma scaleFixed_zero mul : scaleFixed mul 0 = 0.
Proof. unfold scaleFixed. reflexivity. Qed.

Lemma clampHigh_range dim v :
  0 < dim -> 0 <= v -> 0 <= clampHigh dim v <= dim - 1.
Proof.
  intros Hd Hv. unfold clampHigh.
  destruct (Z.geb_spec v dim); lia.
Qed.

Lemma clampHigh_below dim v : v < dim -> clampHigh dim v = v.
Proof.
  intros H. unfold clampHigh.
  destruct (Z.geb_spec v dim); lia.
Qed.

(** With the identity multiplier 65536 nothing wraps below 2^16. *)
Lemma scaleFixed_identity v : 0 <= v < 65536 -> scaleFixed 65536 v = v.
Proof.
  intros Hv. unfold scaleFixed.
  rewrite (to_uint32_small v) by lia.
  rewrite (to_uint32_small (v * 65536)) by lia.
  change (Z.shiftl 1 15) with 32768.
  rewrite (to_uint32_small (v * 65536 + 32768)) by lia.
  rewrite Z.shiftr_div_pow2 by lia.
  change (2 ^ 16) with 65536.
  assert (Hq : (v * 65536 + 32768) / 65536 = v).
  { symmetry. apply (Z.div_unique _ _ v 32768); lia. }
  rewrite Hq. apply to_int32_small. lia.
Qed.

(** One axis of the mapper: the stored coordinate is inside the canvas. *)
Lemma mapCoord_range dim mul raw :
  0 < dim <= 32768 -> 0 <= mapCoord dim mul raw <= dim - 1.
Proof.
  intros Hd. unfold mapCoord, scaledCoord.
  pose proof (scaleFixed_range mul (clampNegative raw)) as Hs.
  pose proof (clampHigh_range dim (scaleFixed mul (clampNegative raw))) as Hc.
  rewrite to_int16_small; lia.
Qed.

(** One axis of the mapper: a negative raw coordinate is scaled as 0. *)
Lemma mapCoord_negative dim mul raw :
  0 < dim -> raw < 0 -> mapCoord dim mul raw = 0.
Proof.
  intros Hd Hr. unfold mapCoord, scaledCoord.
  rewrite clampNegative_of_negative by exact Hr.
  rewrite scaleFixed_zero.
  rewrite clampHigh_below by lia.
  reflexivity.
Qed.

End MapperFacts.

(** ** Pointer state *)

Module PointerState.
Import CInt CIntFacts Mapper MapperFacts Model.

(** C1. For every raw pointer position delivered by the platform, negative
    values included, [readMouseXY] stores a logical position inside the
    canvas: [0 <= x <= SCREEN_W - 1] and [0 <= y <= SCREEN_H - 1].  A
    negative raw coordinate is replaced by 0 before the fixed-point scale
    and is stored as 0; after the scale the value is clamped to the
    dimension minus one.  The canvas dimensions are positive and fit the
    [int16_t] fields of the pointer state. *)
Theorem readMouseXY_in_canvas {World : Type} (SCREEN_W SCREEN_H mx my : Z)
  (st : State World) :
  0 < SCREEN_W <= 32768 ->
  0 < SCREEN_H <= 32768 ->
  let st' := readMouseXY SCREEN_W SCREEN_H mx my st in
  0 <= mouse_x st' <= SCREEN_W - 1 /\
  0 <= mouse_y st' <= SCREEN_H - 1 /\
  (mx < 0 -> clampNegative mx = 0 /\ mouse_x st' = 0) /\
  (my < 0 -> clampNegative my = 0 /\ mouse_y st' = 0).
Proof.
  intros Hw Hh st'. subst st'. unfold readMouseXY. cbn.
  repeat split.
  - apply mapCoord_range; exact Hw.
  - apply mapCoord_range; exact Hw.
  - apply mapCoord_range; exact Hh.
  - apply mapCoord_range; exact Hh.
  - apply clampNegative_of_negative; assumption.
  - apply mapCoord_negative; lia.
  - apply clampNegative_of_negative; assumption.
  - apply mapCoord_negative; lia.
Qed.

Lemma readMouseXY_in_canvas_witness :
  let st' := readMouseXY 128 64 (-3) 500 Sample.unsaved in
  0 <= mouse_x st' <= 128 - 1 /\
  0 <= mouse_y st' <= 64 - 1 /\
  (-3 < 0 -> clampNegative (-3) = 0 /\ mouse_x st' = 0) /\
  (500 < 0 -> clampNegative 500 = 0 /\ mouse_y st' = 0).
Proof.
  apply (readMouseXY_in_canvas 128 64 (-3) 500 Sample.unsaved); lia.
Defined.

(** The value computed on line 105 for raw 255 at the 2x multiplier is 128,
    one past the last column, before the upper clamp. *)
Lemma scaled_255_at_2x_is_128 :
  scaledCoord 32768 255 = 128 /\ scaledCoord 32768 255 <> 127.
Proof. split; [reflexivity | discriminate]. Qed.

(** C2 (amended). On a canvas 128 wide shown in a window 256 wide the scale
    multiplier is round(65536/2) = 32768; raw x = 255 gives
    ((255*32768)+32768)>>16 = 128, which the upper clamp brings to 127, the
    last logical column.  Run through [setupVideo] and [readMouseXY] on a
    128 x 64 canvas in a 256 x 128 window, raw (255, 0) is stored as
    (127, 0). *)
Theorem scenario_2x_last_column :
  scaleMul 128 256 = Some 32768 /\
  scaledCoord 32768 255 = 128 /\
  mapCoord 128 32768 255 = 127 /\
  forall (World : Type) (st : State World),
    exists st1,
      setupVideo 128 64 Sample.platform st = Some (true, st1) /\
      xScaleMul st1 = 32768 /\
      yScaleMul st1 = 32768 /\
      mouse_x (readMouseXY 128 64 255 0 st1) = 127 /\
      mouse_y (readMouseXY 128 64 255 0 st1) = 0.
Proof.
  split; [vm_compute; reflexivity|].
  split; [reflexivity|].
  split; [reflexivity|].
  intros World st.
  eexists. split.
  - unfold setupVideo. cbn [Sample.platform init_result window_ok renderer_ok
      texture_ok malloc_ok sdl_patchlevel window_w window_h negb Z.eqb Z.leb
      Z.compare].
    replace (scaleMul 128 256) with (Some 32768) by (vm_compute; reflexivity).
    replace (scaleMul 64 128) with (Some 32768) by (vm_compute; reflexivity).
    reflexivity.
  - repeat split.
Qed.

(** C5. When the window is as wide as the canvas the scale multiplier
    computed by [setupVideo] is 65536, and every raw coordinate [r] with
    [0 <= r < dimension] is mapped to itself: multiply by the multiplier,
    add 32768, shift right by 16, clamp. *)
Theorem identity_scale_is_identity (dim : Z) :
  0 < dim <= 32768 ->
  scaleMul dim dim = Some 65536 /\
  forall r, 0 <= r < dim ->
    scaledCoord 65536 r = r /\
    mapCoord dim 65536 r = r /\
    forall (World : Type) (other my : Z) (st : State World),
      xScaleMul st = 65536 ->
      mouse_x (readMouseXY dim other r my st) = r.
Proof.
  intros Hd. split.
  - apply DoubleFacts.scaleMul_same.
    change (2 ^ 53) with 9007199254740992. lia.
  - intros r Hr.
    assert (Hs : scaledCoord 65536 r = r).
    { unfold scaledCoord. rewrite clampNegative_id by lia.
      apply scaleFixed_identity. lia. }
    assert (Hm : mapCoord dim 65536 r = r).
    { unfold mapCoord. rewrite Hs. rewrite clampHigh_below by lia.
      apply to_int16_small. lia. }
    split; [exact Hs|]. split; [exact Hm|].
    intros World other my st Hx.
    unfold readMouseXY. cbn. rewrite Hx. exact Hm.
Qed.

Lemma identity_scale_is_identity_witness :
  scaleMul 320 320 = Some 65536 /\
  scaledCoord 65536 319 = 319 /\
  mapCoord 320 65536 319 = 319.
Proof.
  destruct (identity_scale_is_identity 320 ltac:(lia)) as [Hmul Hmap].
  destruct (Hmap 319 ltac:(lia)) as [Hs [Hm _]].
  exact (conj Hmul (conj Hs Hm)).
Defined.

End PointerState.

(** ** State updates and the trace *)

Module StateFacts.
Import Model Spec.

Section WithWorld.

Context {World : Type}.
Variable extern : guicall -> State World -> State World.

Lemma trace_lib c (st : State World) : trace (lib c st) = trace st ++ [Lib c].
Proof. reflexivity. Qed.

Lemma trace_store f b (st : State World) :
  trace (store f b st) = trace st ++ [Store f b].
Proof. reflexivity. Qed.

Lemma trace_gui c (st : State World) :
  trace (gui extern c st) = trace st ++ [Gui c].
Proof. reflexivity. Qed.

Lemma programRunning_lib c (st : State World) :
  programRunning (lib c st) = programRunning st.
Proof. reflexivity. Qed.

Lemma allowSigterm_lib c (st : State World) :
  allowSigterm (lib c st) = allowSigterm st.
Proof. reflexivity. Qed.

Lemma redrawScreen_lib c (st : State World) :
  redrawScreen (lib c st) = redrawScreen st.
Proof. reflexivity. Qed.

Lemma programRunning_gui c (st : State World) :
  programRunning (gui extern c st) = programRunning (extern c st).
Proof. reflexivity. Qed.

Lemma allowSigterm_gui c (st : State World) :
  allowSigterm (gui extern c st) = allowSigterm (extern c st).
Proof. reflexivity. Qed.

Lemma redrawScreen_gui c (st : State World) :
  redrawScreen (gui extern c st) = redrawScreen (extern c st).
Proof. reflexivity. Qed.

Lemma programRunning_stop (st : State World) :
  programRunning (store ProgramRunning false st) = false.
Proof. reflexivity. Qed.

Lemma emits_refl P (st : State World) : emits P st st.
Proof. exists []. split; [symmetry; apply app_nil_r | reflexivity]. Qed.

Lemma emits_trans P (a b c : State World) :
  emits P a b -> emits P b c -> emits P a c.
Proof.
  intros (n1 & H1 & F1) (n2 & H2 & F2).
  exists (n1 ++ n2). split.
  - rewrite H2, H1. symmetry. apply app_assoc.
  - rewrite forallb_app, F1, F2. reflexivity.
Qed.

Lemma emits_lib P c (a b : State World) :
  P (Lib c) = true -> emits P a b -> emits P a (lib c b).
Proof.
  intros H Hab. apply (emits_trans P a b); [exact Hab|].
  exists [Lib c]. split; [reflexivity|].
  cbn. rewrite H. reflexivity.
Qed.

Lemma emits_store P f v (a b : State World) :
  P (Store f v) = true -> emits P a b -> emits P a (store f v b).
Proof.
  intros H Hab. apply (emits_trans P a b); [exact Hab|].
  exists [Store f v]. split; [reflexivity|].
  cbn. rewrite H. reflexivity.
Qed.

Lemma emits_gui P c (a b : State World) :
  P (Gui c) = true -> emits P a b -> emits P a (gui extern c b).
Proof.
  intros H Hab. apply (emits_trans P a b); [exact Hab|].
  exists [Gui c]. split; [reflexivity|].
  cbn. rewrite H. reflexivity.
Qed.

Lemma emits_set_mouse P x y (a b : State World) :
  emits P a b -> emits P a (set_mouse x y b).
Proof. intros H. exact H. Qed.

End WithWorld.

End StateFacts.

(** ** Quit negotiation *)

Module QuitFacts.
Import Model Spec StateFacts.

Section WithWorld.

Context {World : Type}.
Variable extern : guicall -> State World -> State World.
Variable msgBoxAnswer : list event -> MsgBoxResult.

Local Abbreviation dialog := (showAskToSaveDialog extern msgBoxAnswer).
Local Abbreviation handle := (dispatch extern msgBoxAnswer).

(** A quit signal that finds [allowSigterm] false changes nothing. *)
Lemma quit_suppressed (st : State World) :
  allowSigterm st = false -> handle SDL_QUIT st = st.
Proof. intros H. unfold dispatch. rewrite H. reflexivity. Qed.

(** The dialog routine always clears the running flag. *)
Lemma dialog_stops (st : State World) : programRunning (dialog st) = false.
Proof.
  unfold showAskToSaveDialog.
  destruct (msgBoxAnswer (trace st)) as [|id]; reflexivity.
Qed.

(** What the dialog routine appends to the trace, by answer. *)
Lemma dialog_trace (st : State World) :
  trace (dialog st) =
  trace st ++ Lib SDL_ShowMessageBox ::
    match msgBoxAnswer (trace st) with
    | MsgBoxFailed => [Store AllowSigterm true; Store ProgramRunning false]
    | MsgBoxButton id =>
        if id =? 1 then [Gui (savePalette 0); Store ProgramRunning false]
        else [Store ProgramRunning false]
    end.
Proof.
  unfold showAskToSaveDialog.
  destruct (msgBoxAnswer (trace st)) as [|id].
  - cbn. rewrite <- !app_assoc. reflexivity.
  - destruct (id =? 1); cbn; rewrite <- !app_assoc; reflexivity.
Qed.

(** C3. A quit signal that arrives while the colours are unsaved and the
    quit-guard is not engaged shows exactly one confirmation dialog: the
    guard is engaged first (the store [allowSigterm = false], after which a
    further quit signal is a no-op), then the dialog is shown once.  On
    "Yes" the save routine is called with parameter 0 and only then is the
    running flag cleared; on "No" the running flag is cleared and the save
    routine is not called. *)
Theorem quit_unsaved_asks_once (st : State World) :
  allowSigterm st = true ->
  configIsSaved st = false ->
  let guarded := store AllowSigterm false st in
  let st' := handle SDL_QUIT st in
  exists rest,
    trace st' =
      trace st ++ Store AllowSigterm false :: Lib SDL_ShowMessageBox :: rest /\
    List.length (filter isModal
      (Store AllowSigterm false :: Lib SDL_ShowMessageBox :: rest)) = 1%nat /\
    guardEngaged guarded /\
    handle SDL_QUIT guarded = guarded /\
    programRunning st' = false /\
    (msgBoxAnswer (trace guarded) = MsgBoxButton buttonYes ->
       rest = [Gui (savePalette 0); Store ProgramRunning false]) /\
    (msgBoxAnswer (trace guarded) = MsgBoxButton buttonNo ->
       rest = [Store ProgramRunning false] /\ filter isSave rest = []).
Proof.
  intros Hallow Hunsaved guarded st'.
  assert (Hst' : st' = dialog guarded).
  { subst st' guarded. unfold dispatch. rewrite Hallow, Hunsaved. reflexivity. }
  exists (match msgBoxAnswer (trace guarded) with
          | MsgBoxFailed => [Store AllowSigterm true; Store ProgramRunning false]
          | MsgBoxButton id =>
              if id =? 1 then [Gui (savePalette 0); Store ProgramRunning false]
              else [Store ProgramRunning false]
          end).
  split.
  { rewrite Hst', dialog_trace. subst guarded. rewrite trace_store.
    rewrite <- app_assoc. reflexivity. }
  split.
  { destruct (msgBoxAnswer (trace guarded)) as [|id]; [reflexivity|].
    destruct (id =? 1); reflexivity. }
  split; [reflexivity|].
  split; [apply quit_suppressed; reflexivity|].
  split; [rewrite Hst'; apply dialog_stops|].
  split.
  - intros Hyes. rewrite Hyes. reflexivity.
  - intros Hno. rewrite Hno. split; reflexivity.
Qed.

(** A quit signal that finds [allowSigterm] true is acted upon. *)
Lemma quit_honoured (st : State World) :
  allowSigterm st = true ->
  exists e rest, trace (handle SDL_QUIT st) = trace st ++ e :: rest.
Proof.
  intros H. unfold dispatch. rewrite H.
  destruct (negb (configIsSaved st)).
  - rewrite dialog_trace, trace_store, <- app_assoc.
    eexists. eexists. reflexivity.
  - rewrite trace_store. eexists. eexists. reflexivity.
Qed.

(** C4. When the dialog cannot be shown, the flag that guards quitting,
    [allowSigterm], is reset to true, so that a later quit signal is acted
    upon again, and the running flag is cleared, so the loop stops; the
    save routine is not called. *)
Theorem dialog_failure_fails_open (st : State World) :
  msgBoxAnswer (trace st) = MsgBoxFailed ->
  let st' := dialog st in
  allowSigterm st' = true /\
  (exists e rest, trace (handle SDL_QUIT st') = trace st' ++ e :: rest) /\
  programRunning st' = false /\
  trace st' =
    trace st ++ [Lib SDL_ShowMessageBox; Store AllowSigterm true;
                 Store ProgramRunning false] /\
  filter isSave [Lib SDL_ShowMessageBox; Store AllowSigterm true;
                 Store ProgramRunning false] = [].
Proof.
  intros Hfail st'.
  assert (Hallow : allowSigterm st' = true).
  { subst st'. unfold showAskToSaveDialog. rewrite Hfail. reflexivity. }
  split; [exact Hallow|].
  split; [apply quit_honoured; exact Hallow|].
  split; [apply dialog_stops|].
  split; [|reflexivity].
  subst st'. rewrite dialog_trace, Hfail. reflexivity.
Qed.

(** The invariant holds as soon as the running flag is cleared. *)
Lemma guardInvariant_stopped (st : State World) :
  programRunning st = false -> guardInvariant st.
Proof. intros H _. exact H. Qed.

Lemma guardInvariant_lib c (st : State World) :
  guardInvariant st -> guardInvariant (lib c st).
Proof. intros H. exact H. Qed.

Lemma guardInvariant_gui c (st : State World) :
  keepsQuitFlags extern -> guardInvariant st -> guardInvariant (gui extern c st).
Proof.
  intros Hk H. unfold guardInvariant.
  rewrite programRunning_gui, allowSigterm_gui.
  destruct (Hk c st) as [Hr Ha]. rewrite Hr, Ha. exact H.
Qed.

Lemma guardInvariant_dispatch ev (st : State World) :
  keepsQuitFlags extern -> guardInvariant st -> guardInvariant (handle ev st).
Proof.
  intros Hk H. destruct ev as [|sym|button|button|]; unfold dispatch.
  - destruct (allowSigterm st) eqn:Ha; [|exact H].
    destruct (configIsSaved st); cbn [negb].
    + apply guardInvariant_stopped. reflexivity.
    + apply guardInvariant_stopped. apply dialog_stops.
  - apply guardInvariant_gui; assumption.
  - destruct (button =? SDL_BUTTON_LEFT); [apply guardInvariant_gui|]; assumption.
  - destruct (button =? SDL_BUTTON_LEFT); [apply guardInvariant_gui|]; assumption.
  - exact H.
Qed.

(** C6. A quit signal dispatched while the colours are saved leaves the
    running flag false at the end of that dispatch, shows no dialog and
    leaves the quit-guard flag [allowSigterm] as it was.  When quit signals
    are allowed the dispatch is the single store that clears the running
    flag; when the guard is engaged the loop has already been told to
    stop. *)
Theorem quit_saved_stops_without_dialog (st : State World) :
  guardInvariant st ->
  configIsSaved st = true ->
  let st' := handle SDL_QUIT st in
  programRunning st' = false /\
  allowSigterm st' = allowSigterm st /\
  exists new,
    trace st' = trace st ++ new /\
    filter isModal new = [] /\
    (allowSigterm st = true -> new = [Store ProgramRunning false]).
Proof.
  intros Hinv Hsaved st'. subst st'. unfold dispatch.
  destruct (allowSigterm st) eqn:Ha.
  - rewrite Hsaved. cbn [negb].
    split; [reflexivity|].
    split; [exact Ha|].
    exists [Store ProgramRunning false].
    repeat split.
  - split; [apply Hinv; exact Ha|].
    split; [exact Ha|].
    exists []. split; [symmetry; apply app_nil_r|].
    split; [reflexivity|].
    intros Hcontra. discriminate Hcontra.
Qed.

(** C10. When the dialog is shown successfully the quit-guard flag
    [allowSigterm] is still false when the dialog routine returns, whether
    the answer is "Yes" or "No"; it is set back to true only when the
    dialog cannot be shown.  On every exit from the dialog routine the
    running flag is false, so the loop never continues with the guard
    engaged.  The save routine, whose body is outside [main.c], is taken
    to leave [allowSigterm] alone. *)
Theorem dialog_guard_after_answer (st : State World) :
  (forall s, allowSigterm (extern (savePalette 0) s) = allowSigterm s) ->
  allowSigterm st = false ->
  let st' := dialog st in
  programRunning st' = false /\
  guardInvariant st' /\
  (forall id, msgBoxAnswer (trace st) = MsgBoxButton id ->
     allowSigterm st' = false) /\
  (msgBoxAnswer (trace st) = MsgBoxFailed -> allowSigterm st' = true) /\
  (allowSigterm st' = true -> msgBoxAnswer (trace st) = MsgBoxFailed).
Proof.
  intros Hsave Hguard st'.
  assert (Hanswered : forall id, msgBoxAnswer (trace st) = MsgBoxButton id ->
                                 allowSigterm st' = false).
  { intros id Hid. subst st'. unfold showAskToSaveDialog. rewrite Hid.
    destruct (id =? 1).
    - cbn. rewrite Hsave. exact Hguard.
    - exact Hguard. }
  split; [apply dialog_stops|].
  split; [apply guardInvariant_stopped; apply dialog_stops|].
  split; [exact Hanswered|].
  split.
  - intros Hfail. subst st'. unfold showAskToSaveDialog. rewrite Hfail.
    reflexivity.
  - intros Htrue. destruct (msgBoxAnswer (trace st)) as [|id] eqn:Hans;
      [reflexivity|].
    rewrite (Hanswered id eq_refl) in Htrue. discriminate Htrue.
Qed.

End WithWorld.

Lemma sample_keepsQuitFlags : keepsQuitFlags Sample.extern.
Proof. intros c st. destruct c; split; reflexivity. Qed.

Lemma quit_unsaved_asks_once_witness :
  trace (dispatch Sample.extern Sample.answerYes SDL_QUIT Sample.unsaved) =
    [Store AllowSigterm false; Lib SDL_ShowMessageBox;
     Gui (savePalette 0); Store ProgramRunning false] /\
  programRunning
    (dispatch Sample.extern Sample.answerYes SDL_QUIT Sample.unsaved) = false.
Proof.
  destruct (quit_unsaved_asks_once Sample.extern Sample.answerYes
              Sample.unsaved eq_refl eq_refl)
    as (rest & Htrace & _ & _ & _ & Hstop & Hyes & _).
  rewrite (Hyes eq_refl) in Htrace.
  exact (conj Htrace Hstop).
Defined.

Lemma dialog_failure_fails_open_witness :
  let st' := showAskToSaveDialog Sample.extern Sample.answerFailed
               (store AllowSigterm false Sample.unsaved) in
  allowSigterm st' = true /\
  programRunning st' = false /\
  trace st' =
    [Store AllowSigterm false; Lib SDL_ShowMessageBox;
     Store AllowSigterm true; Store ProgramRunning false].
Proof.
  destruct (dialog_failure_fails_open Sample.extern Sample.answerFailed
              (store AllowSigterm false Sample.unsaved) eq_refl)
    as (Hallow & _ & Hstop & Htrace & _).
  exact (conj Hallow (conj Hstop Htrace)).
Defined.

Lemma quit_saved_stops_without_dialog_witness :
  programRunning
    (dispatch Sample.extern Sample.answerYes SDL_QUIT Sample.saved) = false /\
  trace (dispatch Sample.extern Sample.answerYes SDL_QUIT Sample.saved) =
    [Store ProgramRunning false].
Proof.
  destruct (quit_saved_stops_without_dialog Sample.extern Sample.answerYes
              Sample.saved
              (fun H : allowSigterm Sample.saved = false =>
                 False_ind _ (diff_true_false H))
              eq_refl)
    as (Hstop & _ & new & Htrace & _ & Hnew).
  rewrite (Hnew eq_refl) in Htrace.
  exact (conj Hstop Htrace).
Defined.

Lemma dialog_guard_after_answer_witness :
  let st' := showAskToSaveDialog Sample.extern Sample.answerNo
               (store AllowSigterm false Sample.unsaved) in
  programRunning st' = false /\
  allowSigterm st' = false.
Proof.
  destruct (dialog_guard_after_answer Sample.extern Sample.answerNo
              (store AllowSigterm false Sample.unsaved)
              (fun s => eq_refl) eq_refl)
    as (Hstop & _ & Hanswered & _).
  exact (conj Hstop (Hanswered buttonNo eq_refl)).
Defined.

(** The three answers on the sample editor, from the quit signal on. *)
Example quit_answered_yes :
  let st' := dispatch Sample.extern Sample.answerYes SDL_QUIT Sample.unsaved in
  allowSigterm st' = false /\ programRunning st' = false /\
  configIsSaved st' = true.
Proof. repeat split. Qed.

Example quit_answered_no :
  let st' := dispatch Sample.extern Sample.answerNo SDL_QUIT Sample.unsaved in
  allowSigterm st' = false /\ programRunning st' = false /\
  configIsSaved st' = false /\
  trace st' = [Store AllowSigterm false; Lib SDL_ShowMessageBox;
               Store ProgramRunning false].
Proof. repeat split. Qed.

Example quit_dialog_failed :
  let st' :=
    dispatch Sample.extern Sample.answerFailed SDL_QUIT Sample.unsaved in
  allowSigterm st' = true /\ programRunning st' = false /\
  configIsSaved st' = false.
Proof. repeat split. Qed.

End QuitFacts.

(** ** Frame loop *)

Module LoopFacts.
Import Model Spec StateFacts QuitFacts.

Section WithWorld.

Context {World : Type}.
Variable SCREEN_W SCREEN_H : Z.
Variable extern : guicall -> State World -> State World.
Variable msgBoxAnswer : list event -> MsgBoxResult.

Local Abbreviation dialog := (showAskToSaveDialog extern msgBoxAnswer).
Local Abbreviation handle := (dispatch extern msgBoxAnswer).
Local Abbreviation poll := (pollLoop extern msgBoxAnswer).
Local Abbreviation input := (handleInput extern msgBoxAnswer).
Local Abbreviation mouse := (readMouseXY SCREEN_W SCREEN_H).
Local Abbreviation pass := (frame SCREEN_W SCREEN_H extern msgBoxAnswer).
Local Abbreviation loop := (frameLoop SCREEN_W SCREEN_H extern msgBoxAnswer).
Local Abbreviation video := (setupVideo SCREEN_W SCREEN_H).
Local Abbreviation enter := (enterLoop extern).
Local Abbreviation run := (main SCREEN_W SCREEN_H extern msgBoxAnswer).

(** *** What the input phase appends to the trace *)

Lemma quiet_filters (l : list event) :
  forallb isQuiet l = true ->
  filter isRender l = [] /\ filter isDelay l = [].
Proof.
  induction l as [|e l IH]; intros H; [split; reflexivity|].
  cbn in H. apply andb_true_iff in H. destruct H as [He Hl].
  unfold isQuiet in He. apply andb_true_iff in He. destruct He as [Hr Hd].
  apply negb_true_iff in Hr. apply negb_true_iff in Hd.
  destruct (IH Hl) as [IHr IHd].
  cbn. rewrite Hr, Hd. split; assumption.
Qed.

Lemma quiet_dialog (a b : State World) :
  emits isQuiet a b -> emits isQuiet a (dialog b).
Proof.
  intros Hab. unfold showAskToSaveDialog.
  destruct (msgBoxAnswer (trace b)) as [|id].
  - repeat (first [apply emits_store | apply emits_lib]; [reflexivity|]).
    exact Hab.
  - apply emits_store; [reflexivity|].
    destruct (id =? 1).
    + apply emits_gui; [reflexivity|].
      apply emits_lib; [reflexivity|]. exact Hab.
    + apply emits_lib; [reflexivity|]. exact Hab.
Qed.

Lemma quiet_dispatch ev (a b : State World) :
  emits isQuiet a b -> emits isQuiet a (handle ev b).
Proof.
  intros Hab. destruct ev as [|sym|button|button|]; unfold dispatch.
  - destruct (allowSigterm b); [|exact Hab].
    destruct (negb (configIsSaved b)).
    + apply quiet_dialog. apply emits_store; [reflexivity|]. exact Hab.
    + apply emits_store; [reflexivity|]. exact Hab.
  - apply emits_gui; [reflexivity|]. exact Hab.
  - destruct (button =? SDL_BUTTON_LEFT); [|exact Hab].
    apply emits_gui; [reflexivity|]. exact Hab.
  - destruct (button =? SDL_BUTTON_LEFT); [|exact Hab].
    apply emits_gui; [reflexivity|]. exact Hab.
  - exact Hab.
Qed.

Lemma quiet_poll q :
  forall a b : State World, emits isQuiet a b -> emits isQuiet a (poll q b).
Proof.
  induction q as [|ev q IH]; intros a b Hab; cbn [pollLoop].
  - apply emits_lib; [reflexivity|]. exact Hab.
  - apply IH. apply quiet_dispatch. apply emits_lib; [reflexivity|]. exact Hab.
Qed.

Lemma quiet_input q (a b : State World) :
  emits isQuiet a b -> emits isQuiet a (input q b).
Proof.
  intros Hab. unfold handleInput.
  repeat (apply emits_gui; [reflexivity|]).
  apply quiet_poll. exact Hab.
Qed.

Lemma quiet_mouse mx my (a b : State World) :
  emits isQuiet a b -> emits isQuiet a (mouse mx my b).
Proof.
  intros Hab. unfold readMouseXY. apply emits_set_mouse.
  repeat (apply emits_lib; [reflexivity|]). exact Hab.
Qed.

(** What the redraw step appends. *)
Lemma trace_redrawIfPending (st : State World) :
  trace (redrawIfPending st) =
  trace st ++
    (if redrawScreen st then Store RedrawScreen false :: renderCalls else []).
Proof.
  unfold redrawIfPending. destruct (redrawScreen st).
  - cbn. rewrite <- !app_assoc. reflexivity.
  - symmetry. apply app_nil_r.
Qed.

Lemma redrawScreen_redrawIfPending (st : State World) :
  redrawScreen (redrawIfPending st) = false.
Proof.
  unfold redrawIfPending. destruct (redrawScreen st) eqn:H; [reflexivity|exact H].
Qed.

(** What one pass appends: the input phase makes no upload, present or
    sleep call; the redraw step follows the flag; one sleep ends the pass. *)
Lemma frame_events (t : Tick) (st : State World) :
  let mid := input (queue t) (mouse (raw_mx t) (raw_my t) st) in
  exists new,
    trace (pass t st) = trace st ++ new /\
    filter isRender new = (if redrawScreen mid then renderCalls else []) /\
    filter isDelay new = [Lib (SDL_Delay frameDelay)].
Proof.
  intros mid.
  assert (Hq : emits isQuiet st mid).
  { subst mid. apply quiet_input, quiet_mouse, emits_refl. }
  destruct Hq as (pre & Hpre & Hquiet).
  destruct (quiet_filters pre Hquiet) as [Hr Hd].
  exists (pre ++
          (if redrawScreen mid then Store RedrawScreen false :: renderCalls
           else []) ++ [Lib (SDL_Delay frameDelay)]).
  split; [|split].
  - unfold frame. fold mid. rewrite trace_lib, trace_redrawIfPending, Hpre.
    rewrite <- !app_assoc. reflexivity.
  - rewrite !filter_app, Hr. destruct (redrawScreen mid); reflexivity.
  - rewrite !filter_app, Hd. destruct (redrawScreen mid); reflexivity.
Qed.

(** C7. In every pass of the frame loop the upload and present calls are
    made only when the redraw flag is true at the test of line 74: the
    pass makes the four calls once when it is true and none of them when
    it is false.  Every pass ends with exactly one sleep of
    floor(1000/60) + 1 milliseconds, which is not less than 1000/60 ms. *)
Theorem frame_renders_only_when_pending (t : Tick) (st : State World) :
  let mid := input (queue t) (mouse (raw_mx t) (raw_my t) st) in
  exists new,
    trace (pass t st) = trace st ++ new /\
    filter isRender new = (if redrawScreen mid then renderCalls else []) /\
    filter isDelay new = [Lib (SDL_Delay (1000 / 60 + 1))] /\
    1000 / 60 + 1 = 17 /\
    1000 <= 60 * (1000 / 60 + 1).
Proof.
  intros mid.
  destruct (frame_events t st) as (new & Htrace & Hrender & Hdelay).
  exists new.
  split; [exact Htrace|].
  split; [exact Hrender|].
  split; [exact Hdelay|].
  split; [reflexivity|].
  vm_compute. discriminate.
Qed.

(** *** The redraw flag through the input phase *)

Lemma redraw_kept_gui c (st : State World) :
  keepsRedrawPending extern ->
  redrawScreen st = true -> redrawScreen (gui extern c st) = true.
Proof. intros Hk H. rewrite redrawScreen_gui. apply Hk. exact H. Qed.

Lemma redraw_kept_dialog (st : State World) :
  keepsRedrawPending extern ->
  redrawScreen st = true -> redrawScreen (dialog st) = true.
Proof.
  intros Hk H. unfold showAskToSaveDialog.
  destruct (msgBoxAnswer (trace st)) as [|id]; [exact H|].
  destruct (id =? 1); [|exact H].
  change (redrawScreen (gui extern (savePalette 0) (lib SDL_ShowMessageBox st))
          = true).
  apply redraw_kept_gui; assumption.
Qed.

Lemma redraw_kept_dispatch ev (st : State World) :
  keepsRedrawPending extern ->
  redrawScreen st = true -> redrawScreen (handle ev st) = true.
Proof.
  intros Hk H. destruct ev as [|sym|button|button|]; unfold dispatch.
  - destruct (allowSigterm st); [|exact H].
    destruct (negb (configIsSaved st)); [|exact H].
    apply redraw_kept_dialog; assumption.
  - apply redraw_kept_gui; assumption.
  - destruct (button =? SDL_BUTTON_LEFT); [apply redraw_kept_gui|]; assumption.
  - destruct (button =? SDL_BUTTON_LEFT); [apply redraw_kept_gui|]; assumption.
  - exact H.
Qed.

Lemma redraw_kept_poll q :
  keepsRedrawPending extern ->
  forall st : State World,
    redrawScreen st = true -> redrawScreen (poll q st) = true.
Proof.
  intros Hk. induction q as [|ev q IH]; intros st H; cbn [pollLoop].
  - exact H.
  - apply IH. apply redraw_kept_dispatch; assumption.
Qed.

Lemma redraw_kept_input q (st : State World) :
  keepsRedrawPending extern ->
  redrawScreen st = true -> redrawScreen (input q st) = true.
Proof.
  intros Hk H. unfold handleInput.
  repeat apply redraw_kept_gui; try assumption.
  apply redraw_kept_poll; assumption.
Qed.

(** *** The quit flags through a pass *)

Lemma stopped_gui c (st : State World) :
  keepsQuitFlags extern ->
  programRunning st = false -> programRunning (gui extern c st) = false.
Proof.
  intros Hk H. rewrite programRunning_gui.
  destruct (Hk c st) as [Hr _]. rewrite Hr. exact H.
Qed.

Lemma stopped_dispatch ev (st : State World) :
  keepsQuitFlags extern ->
  programRunning st = false -> programRunning (handle ev st) = false.
Proof.
  intros Hk H. destruct ev as [|sym|button|button|]; unfold dispatch.
  - destruct (allowSigterm st); [|exact H].
    destruct (negb (configIsSaved st)); [apply dialog_stops | reflexivity].
  - apply stopped_gui; assumption.
  - destruct (button =? SDL_BUTTON_LEFT); [apply stopped_gui|]; assumption.
  - destruct (button =? SDL_BUTTON_LEFT); [apply stopped_gui|]; assumption.
  - exact H.
Qed.

Lemma stopped_poll q :
  keepsQuitFlags extern ->
  forall st : State World,
    programRunning st = false -> programRunning (poll q st) = false.
Proof.
  intros Hk. induction q as [|ev q IH]; intros st H; cbn [pollLoop].
  - exact H.
  - apply IH. apply stopped_dispatch; assumption.
Qed.

(** A quit signal always leaves the running flag false, on a state that
    satisfies the invariant. *)
Lemma quit_stops (st : State World) :
  guardInvariant st -> programRunning (handle SDL_QUIT st) = false.
Proof.
  intros Hinv. unfold dispatch.
  destruct (allowSigterm st) eqn:Ha; [|apply Hinv; exact Ha].
  destruct (negb (configIsSaved st)); [apply dialog_stops | reflexivity].
Qed.

Lemma guardInvariant_poll q :
  keepsQuitFlags extern ->
  forall st : State World, guardInvariant st -> guardInvariant (poll q st).
Proof.
  intros Hk. induction q as [|ev q IH]; intros st H; cbn [pollLoop].
  - exact H.
  - apply IH. apply guardInvariant_dispatch; [exact Hk|].
    apply guardInvariant_lib. exact H.
Qed.

Lemma quit_in_queue_stops_poll q :
  keepsQuitFlags extern ->
  In SDL_QUIT q ->
  forall st : State World,
    guardInvariant st -> programRunning (poll q st) = false.
Proof.
  intros Hk. induction q as [|ev q IH]; intros Hin st Hinv; [destruct Hin|].
  cbn [pollLoop]. destruct Hin as [Heq|Hin].
  - subst ev. apply stopped_poll; [exact Hk|].
    apply quit_stops. apply guardInvariant_lib. exact Hinv.
  - apply IH; [exact Hin|].
    apply guardInvariant_dispatch; [exact Hk|].
    apply guardInvariant_lib. exact Hinv.
Qed.

Lemma programRunning_redrawIfPending (st : State World) :
  programRunning (redrawIfPending st) = programRunning st.
Proof. unfold redrawIfPending. destruct (redrawScreen st); reflexivity. Qed.

Lemma allowSigterm_redrawIfPending (st : State World) :
  allowSigterm (redrawIfPending st) = allowSigterm st.
Proof. unfold redrawIfPending. destruct (redrawScreen st); reflexivity. Qed.

Lemma guardInvariant_frame t (st : State World) :
  keepsQuitFlags extern -> guardInvariant st -> guardInvariant (pass t st).
Proof.
  intros Hk H. unfold frame, guardInvariant.
  rewrite programRunning_lib, allowSigterm_lib.
  rewrite programRunning_redrawIfPending, allowSigterm_redrawIfPending.
  unfold handleInput.
  repeat apply guardInvariant_gui; try exact Hk.
  apply guardInvariant_poll; [exact Hk|].
  exact H.
Qed.

(** A pass whose queue holds a quit signal ends with the running flag
    false. *)
Lemma quit_in_queue_stops_frame t (st : State World) :
  keepsQuitFlags extern ->
  guardInvariant st ->
  In SDL_QUIT (queue t) ->
  programRunning (pass t st) = false.
Proof.
  intros Hk Hinv Hin. unfold frame.
  rewrite programRunning_lib, programRunning_redrawIfPending.
  unfold handleInput.
  repeat apply stopped_gui; try exact Hk.
  apply quit_in_queue_stops_poll; [exact Hk | exact Hin |].
  exact Hinv.
Qed.

(** *** Leaving the loop *)

Lemma frameLoop_stopped ticks (st : State World) :
  programRunning st = false -> loop ticks st = Some st.
Proof. intros H. destruct ticks; cbn [frameLoop]; rewrite H; reflexivity. Qed.

Lemma frameLoop_result ticks :
  forall st st' : State World,
    loop ticks st = Some st' -> programRunning st' = false.
Proof.
  induction ticks as [|t ticks IH]; intros st st' H; cbn [frameLoop] in H.
  - destruct (programRunning st) eqn:Hr; [discriminate H|].
    injection H as <-. exact Hr.
  - destruct (programRunning st) eqn:Hr.
    + apply (IH _ _ H).
    + injection H as <-. exact Hr.
Qed.

(** The loop is left as soon as the platform delivers a quit signal. *)
Lemma frameLoop_terminates ticks :
  keepsQuitFlags extern ->
  Exists (fun t => In SDL_QUIT (queue t)) ticks ->
  forall st : State World,
    guardInvariant st -> exists st', loop ticks st = Some st'.
Proof.
  intros Hk. induction ticks as [|t ticks IH]; intros Hex st Hinv.
  - inversion Hex.
  - cbn [frameLoop]. destruct (programRunning st) eqn:Hr; [|eexists; reflexivity].
    inversion Hex as [? ? Hquit|? ? Hlater]; subst.
    + exists (pass t st). apply frameLoop_stopped.
      apply quit_in_queue_stops_frame; assumption.
    + apply IH; [exact Hlater|].
      apply guardInvariant_frame; assumption.
Qed.

(** *** Startup *)

Lemma setupVideo_allowSigterm p (st st1 : State World) b :
  video p st = Some (b, st1) -> allowSigterm st1 = allowSigterm st.
Proof.
  unfold setupVideo, showErrorMsgBox. intros H. cbv zeta in H.
  destruct (5 <=? sdl_patchlevel p);
    repeat match type of H with
           | (if ?c then _ else _) = _ => destruct c
           | match ?c with Some _ => _ | None => _ end = _ => destruct c
           end;
    try discriminate H; injection H as <- <-; reflexivity.
Qed.

Lemma enterLoop_flags (st : State World) :
  redrawScreen (enter st) = true /\ programRunning (enter st) = true.
Proof. split; reflexivity. Qed.

Lemma guardInvariant_enterLoop (st : State World) :
  keepsQuitFlags extern -> allowSigterm st = true -> guardInvariant (enter st).
Proof.
  intros Hk Ha Hfalse. exfalso.
  unfold enterLoop in Hfalse. cbn in Hfalse.
  destruct (Hk setupGUI st) as [_ Hkeep].
  rewrite Hkeep, Ha in Hfalse. discriminate Hfalse.
Qed.

(** C8. When startup has completed ([setupVideo] returned true and the
    GUI is built), the redraw flag is true at the first test of the loop
    condition, and so is the running flag: the first pass always runs.
    Provided the routines of the other modules never lower the redraw flag,
    that first pass makes the upload and present calls once; it leaves the
    flag false. *)
Theorem redraw_pending_at_loop_entry (st1 : State World) (t : Tick) :
  let entry := enter st1 in
  redrawScreen entry = true /\
  programRunning entry = true /\
  (forall p st0 ticks,
     video p st0 = Some (true, st1) ->
     run p (t :: ticks) st0 =
       match loop ticks (pass t entry) with
       | None => StillRunning
       | Some st => Returned 0 (shutdown st)
       end) /\
  (keepsRedrawPending extern ->
   exists new,
     trace (pass t entry) = trace entry ++ new /\
     filter isRender new = renderCalls) /\
  redrawScreen (pass t entry) = false.
Proof.
  intros entry.
  split; [reflexivity|].
  split; [reflexivity|].
  split; [|split].
  - intros p st0 ticks Hvideo. unfold main. rewrite Hvideo. reflexivity.
  - intros Hk.
    destruct (frame_events t entry) as (new & Htrace & Hrender & _).
    exists new. split; [exact Htrace|].
    rewrite Hrender.
    assert (Hmid : redrawScreen
                     (input (queue t) (mouse (raw_mx t) (raw_my t) entry))
                   = true).
    { apply redraw_kept_input; [exact Hk|]. reflexivity. }
    rewrite Hmid. reflexivity.
  - unfold frame. rewrite redrawScreen_lib.
    apply redrawScreen_redrawIfPending.
Qed.

(** C9. [main] returns 0 on every path.  Whenever it returns, the value is
    0.  When an initialisation step fails (video subsystem, window,
    renderer, texture or frame buffer) it does return: the last two calls
    are the error dialog of that step and [SDL_Quit].  When initialisation
    succeeds and the platform delivers a quit signal, the loop is left with
    the running flag false, the buffers are freed, the platform is shut
    down and [main] returns 0. *)
Theorem main_returns_zero (p : Platform) (ticks : list Tick)
  (st : State World) :
  (forall code st', run p ticks st = Returned code st' -> code = 0) /\
  (forall msg,
     initFailure p = Some msg ->
     exists pre st',
       run p ticks st = Returned 0 st' /\
       trace st' = pre ++ [Lib (SDL_ShowSimpleMessageBox msg); Lib SDL_Quit]) /\
  (forall st1,
     video p st = Some (true, st1) ->
     keepsQuitFlags extern ->
     allowSigterm st = true ->
     Exists (fun t => In SDL_QUIT (queue t)) ticks ->
     exists st2,
       loop ticks (enter st1) = Some st2 /\
       programRunning st2 = false /\
       run p ticks st = Returned 0 (shutdown st2) /\
       trace (shutdown st2) =
         trace st2 ++ (if loadedFile st2 then [Lib Free_loadedFile] else [])
           ++ [Lib Free_frameBuffer; Lib SDL_Quit]).
Proof.
  split; [|split].
  - intros code st' H. unfold main in H.
    destruct (video p st) as [[[|] st1]|]; [| |discriminate H].
    + destruct (loop ticks (enter st1)); [|discriminate H].
      injection H as <- _. reflexivity.
    + injection H as <- _. reflexivity.
  - intros msg Hfail. unfold initFailure in Hfail.
    unfold main, setupVideo, showErrorMsgBox. cbv zeta.
    destruct (negb (init_result p =? 0)).
    { injection Hfail as <-. eexists. eexists. split; [reflexivity|].
      cbn. rewrite <- app_assoc. reflexivity. }
    destruct (negb (window_ok p)).
    { injection Hfail as <-. eexists. eexists. split; [reflexivity|].
      cbn. rewrite <- app_assoc. reflexivity. }
    destruct (negb (renderer_ok p)).
    { injection Hfail as <-. eexists. eexists. split; [reflexivity|].
      cbn. rewrite <- app_assoc. reflexivity. }
    destruct (negb (texture_ok p)).
    { injection Hfail as <-. eexists. eexists. split; [reflexivity|].
      cbn. rewrite <- app_assoc. reflexivity. }
    destruct (negb (malloc_ok p)); [|discriminate Hfail].
    injection Hfail as <-. eexists. eexists. split; [reflexivity|].
    cbn. rewrite <- app_assoc. reflexivity.
  - intros st1 Hvideo Hk Hallow Hquit.
    assert (Hinv : guardInvariant (enter st1)).
    { apply guardInvariant_enterLoop; [exact Hk|].
      rewrite (setupVideo_allowSigterm p st st1 true Hvideo). exact Hallow. }
    destruct (frameLoop_terminates ticks Hk Hquit (enter st1) Hinv)
      as [st2 Hloop].
    exists st2.
    split; [exact Hloop|].
    split; [apply (frameLoop_result ticks (enter st1)); exact Hloop|].
    split.
    + unfold main. rewrite Hvideo, Hloop. reflexivity.
    + unfold shutdown. destruct (loadedFile st2); cbn;
        rewrite <- ?app_assoc; reflexivity.
Qed.

End WithWorld.

Lemma sample_keepsRedrawPending : keepsRedrawPending Sample.extern.
Proof. intros c st H. destruct c; cbn; try exact H; reflexivity. Qed.

Lemma redraw_pending_at_loop_entry_witness :
  let entry := enterLoop Sample.extern Sample.unsaved in
  redrawScreen entry = true /\
  programRunning entry = true /\
  (exists new,
     trace (frame 128 64 Sample.extern Sample.answerYes Sample.busyTick entry)
       = trace entry ++ new /\
     filter isRender new = renderCalls) /\
  redrawScreen
    (frame 128 64 Sample.extern Sample.answerYes Sample.busyTick entry) = false.
Proof.
  destruct (redraw_pending_at_loop_entry 128 64 Sample.extern Sample.answerYes
              Sample.unsaved Sample.busyTick)
    as (Hredraw & Hrun & _ & Hfirst & Hsettled).
  exact (conj Hredraw
           (conj Hrun (conj (Hfirst sample_keepsRedrawPending) Hsettled))).
Defined.

Lemma main_returns_zero_witness :
  (exists pre st',
     main 128 64 Sample.extern Sample.answerYes Sample.noRenderer
       [Sample.quitTick] (initState false false tt) = Returned 0 st' /\
     trace st' =
       pre ++ [Lib (SDL_ShowSimpleMessageBox
                      "Couldn't create an SDL2 renderer: %s");
               Lib SDL_Quit]) /\
  (exists st2,
     main 128 64 Sample.extern Sample.answerYes Sample.platform
       [Sample.busyTick; Sample.quitTick] (initState false false tt)
     = Returned 0 (shutdown st2)).
Proof.
  split.
  - destruct (main_returns_zero 128 64 Sample.extern Sample.answerYes
                Sample.noRenderer [Sample.quitTick] (initState false false tt))
      as (_ & Hfail & _).
    exact (Hfail _ eq_refl).
  - destruct (main_returns_zero 128 64 Sample.extern Sample.answerYes
                Sample.platform [Sample.busyTick; Sample.quitTick]
                (initState false false tt))
      as (_ & _ & Hquit).
    edestruct Hquit as (st2 & _ & _ & Hret & _).
    + vm_compute. reflexivity.
    + exact QuitFacts.sample_keepsQuitFlags.
    + reflexivity.
    + apply Exists_cons_tl, Exists_cons_hd. left. reflexivity.
    + exists st2. exact Hret.
Defined.

End LoopFacts.

(** ** More on the coordinate mapper *)

Module MapperMore.
Import CInt CIntFacts Mapper MapperFacts Macros.

(** Without wrap-around the three conversions and the shift of line 105
    are the integer quotient of the biased product. *)
Lemma scaleFixed_exact mul v :
  0 <= v -> 0 <= mul -> v * mul + 32768 < 4294967296 ->
  scaleFixed mul v = (v * mul + 32768) / 65536.
Proof.
  intros Hv Hm Hsmall. unfold scaleFixed, to_uint32.
  rewrite Z.mul_mod_idemp_l by lia.
  assert (Hp : 0 <= v * mul) by (apply Z.mul_nonneg_nonneg; lia).
  rewrite (Z.mod_small (v * mul)) by lia.
  change (Z.shiftl 1 15) with 32768.
  rewrite (Z.mod_small (v * mul + 32768)) by lia.
  rewrite Z.shiftr_div_pow2 by lia.
  change (2 ^ 16) with 65536.
  apply to_int32_small.
  assert (0 <= (v * mul + 32768) / 65536) by (apply Z.div_pos; lia).
  assert ((v * mul + 32768) / 65536 < 65536)
    by (apply Z.div_lt_upper_bound; lia).
  lia.
Qed.

(** X1. As long as the biased product fits 32 bits, the fixed-point scale
    of line 105 is the 16.16 product rounded to the nearest integer, a
    half rounding up. *)
Theorem fixed_point_rounds_to_nearest (mul raw : Z) :
  0 <= raw -> 0 <= mul -> raw * mul + 32768 < 4294967296 ->
  let q := scaledCoord mul raw in
  q = (raw * mul + 32768) / 65536 /\
  65536 * q - 32768 <= raw * mul < 65536 * q + 32768.
Proof.
  intros Hr Hm Hsmall q.
  assert (Hq : q = (raw * mul + 32768) / 65536).
  { subst q. unfold scaledCoord. rewrite clampNegative_id by exact Hr.
    apply scaleFixed_exact; assumption. }
  split; [exact Hq|].
  pose proof (Z.div_mod (raw * mul + 32768) 65536 ltac:(lia)) as Hdm.
  pose proof (Z.mod_pos_bound (raw * mul + 32768) 65536 ltac:(lia)) as Hb.
  rewrite <- Hq in Hdm. lia.
Qed.

Lemma fixed_point_rounds_to_nearest_witness :
  scaledCoord 32717 640 = (640 * 32717 + 32768) / 65536 /\
  65536 * scaledCoord 32717 640 - 32768 <= 640 * 32717
    < 65536 * scaledCoord 32717 640 + 32768.
Proof.
  apply (fixed_point_rounds_to_nearest 32717 640); lia.
Defined.

Lemma clampHigh_monotone dim a b : a <= b -> clampHigh dim a <= clampHigh dim b.
Proof.
  intros H. unfold clampHigh.
  destruct (Z.geb_spec a dim), (Z.geb_spec b dim); lia.
Qed.

(** X2. As long as the biased product of the larger coordinate fits 32
    bits, the mapper is monotone: a pointer further right (or down) is
    never mapped further left (or up). *)
Theorem mapCoord_monotone (dim mul r1 r2 : Z) :
  0 < dim <= 32768 -> 0 <= mul -> r1 <= r2 ->
  clampNegative r2 * mul + 32768 < 4294967296 ->
  mapCoord dim mul r1 <= mapCoord dim mul r2.
Proof.
  intros Hd Hm Hle Hsmall.
  pose proof (clampNegative_nonneg r1) as H1.
  pose proof (clampNegative_nonneg r2) as H2.
  assert (Hc : clampNegative r1 <= clampNegative r2).
  { unfold clampNegative.
    destruct (Z.ltb_spec r1 0), (Z.ltb_spec r2 0); lia. }
  assert (Hp : clampNegative r1 * mul <= clampNegative r2 * mul)
    by (apply Z.mul_le_mono_nonneg_r; lia).
  unfold mapCoord, scaledCoord.
  rewrite !scaleFixed_exact by lia.
  assert (Hq : (clampNegative r1 * mul + 32768) / 65536
               <= (clampNegative r2 * mul + 32768) / 65536)
    by (apply Z.div_le_mono; lia).
  assert (Hq1 : 0 <= (clampNegative r1 * mul + 32768) / 65536)
    by (apply Z.div_pos; [apply Z.add_nonneg_nonneg;
                            [apply Z.mul_nonneg_nonneg|]|]; lia).
  pose proof (clampHigh_monotone dim _ _ Hq) as Hmono.
  pose proof (clampHigh_range dim _ ltac:(lia) Hq1) as Hr1.
  pose proof (clampHigh_range dim
                ((clampNegative r2 * mul + 32768) / 65536)
                ltac:(lia) ltac:(lia)) as Hr2.
  rewrite !to_int16_small by lia. exact Hmono.
Qed.

Lemma mapCoord_monotone_witness :
  mapCoord 320 32717 (-7) <= mapCoord 320 32717 500.
Proof.
  apply (mapCoord_monotone 320 32717 (-7) 500); [lia | lia | lia |].
  vm_compute. reflexivity.
Defined.

Lemma two_x_scaled r :
  0 <= r <= 131070 -> scaledCoord 32768 r = (r + 1) / 2.
Proof.
  intros Hr. unfold scaledCoord. rewrite clampNegative_id by lia.
  rewrite scaleFixed_exact by lia.
  replace (r * 32768 + 32768) with ((r + 1) * 32768) by lia.
  change 65536 with (2 * 32768).
  apply Z.div_mul_cancel_r; lia.
Qed.

Lemma two_x_lemma dim r :
  0 < dim <= 32768 -> 0 <= r <= 131070 ->
  mapCoord dim 32768 r = Z.min ((r + 1) / 2) (dim - 1).
Proof.
  intros Hd Hr. unfold mapCoord. rewrite two_x_scaled by exact Hr.
  assert (Hh : 0 <= (r + 1) / 2) by (apply Z.div_pos; lia).
  pose proof (clampHigh_range dim ((r + 1) / 2) ltac:(lia) Hh) as Hc.
  rewrite to_int16_small by lia.
  unfold clampHigh. destruct (Z.geb_spec ((r + 1) / 2) dim); lia.
Qed.

(** X3. At the 2x multiplier 32768 the mapper sends raw coordinate [r] to
    [(r + 1) / 2], limited to the last column: physical columns [2k - 1]
    and [2k] land on logical column [k]. *)
Theorem two_x_closed_form (dim r : Z) :
  0 < dim <= 32768 -> 0 <= r <= 131070 ->
  scaledCoord 32768 r = (r + 1) / 2 /\
  mapCoord dim 32768 r = Z.min ((r + 1) / 2) (dim - 1).
Proof.
  intros Hd Hr. split.
  - apply two_x_scaled. exact Hr.
  - apply two_x_lemma; assumption.
Qed.

Lemma two_x_closed_form_witness :
  scaledCoord 32768 201 = (201 + 1) / 2 /\
  mapCoord 128 32768 201 = Z.min ((201 + 1) / 2) (128 - 1).
Proof.
  apply (two_x_closed_form 128 201); lia.
Defined.

(** X4. With [low <= high] the macro [CLAMP] returns a value between the
    two bounds, returns its argument when that lies between them, and
    clamping twice changes nothing. *)
Theorem CLAMP_range (x low high : Z) :
  low <= high ->
  low <= CLAMP x low high <= high /\
  (low <= x <= high -> CLAMP x low high = x) /\
  CLAMP (CLAMP x low high) low high = CLAMP x low high.
Proof.
  intros H. unfold CLAMP.
  destruct (Z.gtb_spec x high) as [Hg|Hg].
  - destruct (Z.gtb_spec high high); [lia|].
    destruct (Z.ltb_spec high low); lia.
  - destruct (Z.ltb_spec x low) as [Hl|Hl].
    + destruct (Z.gtb_spec low high); [lia|].
      destruct (Z.ltb_spec low low); lia.
    + destruct (Z.gtb_spec x high); [lia|].
      destruct (Z.ltb_spec x low); lia.
Qed.

Lemma CLAMP_range_witness :
  0 <= CLAMP 300 0 255 <= 255 /\
  (0 <= 300 <= 255 -> CLAMP 300 0 255 = 300) /\
  CLAMP (CLAMP 300 0 255) 0 255 = CLAMP 300 0 255.
Proof.
  apply (CLAMP_range 300 0 255). lia.
Defined.

End MapperMore.

(** ** More on the scale factors *)

Module ScaleMore.
Import Double DoubleFacts Mapper.

(** The conversions of [d] and [2 d] share their mantissa. *)
Lemma of_int_twice p :
  Zpos p < 2 ^ 52 ->
  exists m e,
    of_int (Zpos p) = S754_finite false m e /\
    of_int (Zpos p~0) = S754_finite false m (e + 1).
Proof.
  intros Hlt.
  assert (Hlt1 : Zpos p < 2 ^ 53).
  { change (2 ^ 52) with 4503599627370496 in Hlt.
    change (2 ^ 53) with 9007199254740992. lia. }
  assert (Hlt2 : Zpos p~0 < 2 ^ 53).
  { change (2 ^ 52) with 4503599627370496 in Hlt.
    change (2 ^ 53) with 9007199254740992. lia. }
  pose proof (digits2_pos_bound (p~0) Hlt2) as Hn.
  cbn [digits2_pos] in Hn.
  unfold of_int, binary_normalize, binary_round.
  rewrite !Z.add_0_r.
  rewrite !fexp_normal by lia.
  unfold shl_align. rewrite !Z.sub_0_r.
  cbn [digits2_pos].
  destruct (Zpos (digits2_pos p) - 53) as [|k|k] eqn:Hk; try lia.
  destruct (Zpos (Pos.succ (digits2_pos p)) - 53) as [|k'|k'] eqn:Hk'; try lia.
  - exists (Pos.iter xO p k), (Zneg k).
    assert (k = 1%positive) by lia. subst k.
    split.
    + apply round_aux_canonical; [|lia].
      rewrite digits2_pos_iter_xO. lia.
    + cbn [Pos.iter]. change (Zneg 1 + 1) with 0.
      apply round_aux_canonical; [|lia].
      cbn [digits2_pos]. lia.
  - exists (Pos.iter xO p k), (Zneg k).
    assert (Hkk : k = Pos.succ k') by lia.
    split.
    + apply round_aux_canonical; [|lia].
      rewrite digits2_pos_iter_xO. lia.
    + replace (Zneg k + 1) with (Zneg k') by lia.
      rewrite Hkk, Pos.iter_succ, <- Pos.iter_swap.
      apply round_aux_canonical; [|lia].
      rewrite digits2_pos_iter_xO. cbn [digits2_pos]. lia.
Qed.

(** A finite double divided by its half is exactly 2.0. *)
Lemma div_twice m e :
  div (S754_finite false m (e + 1)) (S754_finite false m e)
  = S754_finite false 4503599627370496 (-51).
Proof.
  unfold div, SFdiv, SFdiv_core_binary.
  replace (Zdigits2 (Zpos m) + (e + 1) - (Zdigits2 (Zpos m) + e)) with 1
    by lia.
  replace (e + 1 - e) with 1 by lia.
  change (Z.min (fexp prec emax 1) 1) with (-52).
  change (1 - -52) with 53.
  cbv beta iota zeta.
  rewrite shiftl_div_eucl_same.
  assert (Hl : new_location (Zpos m) 0 = loc_Exact).
  { unfold new_location, new_location_even, new_location_odd.
    destruct (Z.even (Zpos m)); reflexivity. }
  rewrite Hl.
  reflexivity.
Qed.

(** X5. A window dimension of 0 never divides by zero: for every canvas
    dimension the scale is 0.0 and the multiplier the neutral 65536. *)
Theorem scaleMul_zero_window (dim : Z) :
  0 < dim < 2 ^ 53 -> scaleMul dim 0 = Some 65536.
Proof.
  intros H.
  destruct (of_int_finite dim H) as (m & e & Hm).
  unfold scaleMul. rewrite Hm. reflexivity.
Qed.

Lemma scaleMul_zero_window_witness : scaleMul 200 0 = Some 65536.
Proof.
  apply (scaleMul_zero_window 200).
  split; [lia | vm_compute; reflexivity].
Defined.

(** The scale of a window twice as wide as the canvas is exactly 2.0. *)
Lemma double_window_scale (dim : Z) :
  0 < dim < 2 ^ 52 ->
  div (of_int (dim * 2)) (of_int dim)
  = S754_finite false 4503599627370496 (-51).
Proof.
  intros [Hpos Hlt].
  destruct dim as [|p|p]; try lia.
  destruct (of_int_twice p Hlt) as (m & e & Hd & Hw).
  replace (Zpos p * 2) with (Zpos p~0) by lia.
  rewrite Hd, Hw. apply div_twice.
Qed.

(** X6. For the window size the program asks for, twice the canvas, the
    binary64 computation of lines 302-305 gives exactly 32768, whatever
    the canvas dimension. *)
Theorem scaleMul_double_window (dim : Z) :
  0 < dim < 2 ^ 52 -> scaleMul dim (dim * 2) = Some 32768.
Proof.
  intros H. unfold scaleMul.
  rewrite (double_window_scale dim H).
  vm_compute. reflexivity.
Qed.

Lemma scaleMul_double_window_witness : scaleMul 200 (200 * 2) = Some 32768.
Proof.
  apply (scaleMul_double_window 200).
  split; [lia | vm_compute; reflexivity].
Defined.

End ScaleMore.

(** ** More on startup *)

Module SetupMore.
Import CInt Mapper MapperFacts Model Spec Observe StateFacts.

Lemma emits_weaken {World : Type} (P Q : event -> bool) (a b : State World) :
  (forall e, P e = true -> Q e = true) -> emits P a b -> emits Q a b.
Proof.
  intros Himp (new & Htrace & Hall).
  exists new. split; [exact Htrace|].
  apply forallb_forall. intros e He.
  apply Himp. apply (proj1 (forallb_forall P new) Hall e He).
Qed.

Lemma setupStep_startupCall e : isSetupStep e = true -> isStartupCall e = true.
Proof.
  unfold isSetupStep. intros H.
  apply andb_true_iff in H. destruct H as [H _].
  apply andb_true_iff in H. destruct H as [H _].
  apply andb_true_iff in H. destruct H as [H _].
  exact H.
Qed.

Section WithWorld.

Context {World : Type}.
Variable SCREEN_W SCREEN_H : Z.

Local Abbreviation video := (@setupVideo World SCREEN_W SCREEN_H).

Lemma emits_set_frameBuffer P v (a b : State World) :
  emits P a b -> emits P a (set_frameBuffer v b).
Proof. intros H. exact H. Qed.

Lemma emits_set_scale P mx my (a b : State World) :
  emits P a b -> emits P a (set_scale mx my b).
Proof. intros H. exact H. Qed.

Local Ltac setup_steps :=
  repeat first [ apply emits_refl
               | apply emits_set_frameBuffer
               | apply emits_set_scale
               | apply emits_lib; [reflexivity|] ].

(** The report of a failed step: the dialog is the last call, after the
    steps made so far. *)
Lemma failure_report (st mid : State World) (msg : string) :
  emits isSetupStep st mid ->
  xScaleMul mid = xScaleMul st ->
  yScaleMul mid = yScaleMul st ->
  programRunning mid = programRunning st ->
  (frameBuffer st = false -> frameBuffer mid = false) ->
  exists st' pre,
    Some (false, showErrorMsgBox msg mid) = Some (false, st') /\
    trace st' = trace st ++ pre ++ [Lib (SDL_ShowSimpleMessageBox msg)] /\
    forallb isSetupStep pre = true /\
    xScaleMul st' = xScaleMul st /\
    yScaleMul st' = yScaleMul st /\
    programRunning st' = programRunning st /\
    (frameBuffer st = false -> frameBuffer st' = false).
Proof.
  intros (pre & Htrace & Hall) Hx Hy Hr Hf.
  exists (showErrorMsgBox msg mid), pre.
  split; [reflexivity|].
  split.
  { unfold showErrorMsgBox. rewrite trace_lib, Htrace.
    symmetry. apply app_assoc. }
  split; [exact Hall|].
  split; [exact Hx|].
  split; [exact Hy|].
  split; [exact Hr|].
  exact Hf.
Qed.

Lemma setupVideo_failure (p : Platform) (st : State World) (msg : string) :
  initFailure p = Some msg ->
  exists st' pre,
    video p st = Some (false, st') /\
    trace st' = trace st ++ pre ++ [Lib (SDL_ShowSimpleMessageBox msg)] /\
    forallb isSetupStep pre = true /\
    xScaleMul st' = xScaleMul st /\
    yScaleMul st' = yScaleMul st /\
    programRunning st' = programRunning st /\
    (frameBuffer st = false -> frameBuffer st' = false).
Proof.
  intros H. unfold initFailure in H. unfold setupVideo. cbv zeta.
  destruct (negb (init_result p =? 0)).
  { injection H as <-.
    apply failure_report;
      [setup_steps | reflexivity | reflexivity | reflexivity |].
    intros Hf; exact Hf. }
  destruct (negb (window_ok p)).
  { injection H as <-.
    apply failure_report;
      [setup_steps | reflexivity | reflexivity | reflexivity |].
    intros Hf; exact Hf. }
  destruct (negb (renderer_ok p)).
  { injection H as <-.
    apply failure_report;
      [setup_steps | reflexivity | reflexivity | reflexivity |].
    intros Hf; exact Hf. }
  destruct (negb (texture_ok p)).
  { injection H as <-.
    destruct (5 <=? sdl_patchlevel p);
      (apply failure_report;
         [setup_steps | reflexivity | reflexivity | reflexivity |]);
      intros Hf; exact Hf. }
  destruct (negb (malloc_ok p)) eqn:Hm; [|discriminate H].
  injection H as <-.
  apply negb_true_iff in Hm.
  destruct (5 <=? sdl_patchlevel p);
    (apply failure_report;
       [setup_steps | reflexivity | reflexivity | reflexivity |]);
    intros _; exact Hm.
Qed.



(** When every step succeeds and both conversions are defined,
    [setupVideo] returns true with the multipliers stored. *)
Lemma setupVideo_success (p : Platform) (st : State World) (mx my : Z) :
  initFailure p = None ->
  scaleMul SCREEN_W (window_w p) = Some mx ->
  scaleMul SCREEN_H (window_h p) = Some my ->
  exists st' new,
    video p st = Some (true, st') /\
    trace st' = trace st ++ new /\
    forallb isStartupCall new = true /\
    filter isErrorDialog new = [] /\
    In (Lib (SDL_CreateWindow (SCREEN_W * 2) (SCREEN_H * 2))) new /\
    xScaleMul st' = mx /\
    yScaleMul st' = my /\
    frameBuffer st' = true.
Proof.
  intros H Hx Hy. unfold initFailure in H. unfold setupVideo. cbv zeta.
  destruct (negb (init_result p =? 0)); [discriminate H|].
  destruct (negb (window_ok p)); [discriminate H|].
  destruct (negb (renderer_ok p)); [discriminate H|].
  destruct (negb (texture_ok p)); [discriminate H|].
  destruct (negb (malloc_ok p)) eqn:Hm; [discriminate H|].
  apply negb_false_iff in Hm.
  rewrite Hx, Hy.
  destruct (5 <=? sdl_patchlevel p).
  - eexists. eexists. split; [reflexivity|].
    split; [cbn; rewrite <- !app_assoc; reflexivity|].
    split; [reflexivity|].
    split; [reflexivity|].
    split; [cbn; tauto|].
    split; [reflexivity|].
    split; [reflexivity|].
    exact Hm.
  - eexists. eexists. split; [reflexivity|].
    split; [cbn; rewrite <- !app_assoc; reflexivity|].
    split; [reflexivity|].
    split; [reflexivity|].
    split; [cbn; tauto|].
    split; [reflexivity|].
    split; [reflexivity|].
    exact Hm.
Qed.

(** X8. When every setup step succeeds and the platform reports the
    window size the program asked for, twice the canvas, [setupVideo]
    returns true without any error dialog, the frame buffer is allocated
    and both multipliers are 32768; from then on [readMouseXY] stores
    [min ((r + 1) / 2, SCREEN_W - 1)] for a raw abscissa [r]. *)
Theorem setupVideo_at_requested_size (p : Platform) (st : State World) :
  0 < SCREEN_W <= 32768 ->
  0 < SCREEN_H <= 32768 ->
  initFailure p = None ->
  window_w p = SCREEN_W * 2 ->
  window_h p = SCREEN_H * 2 ->
  exists st' new,
    video p st = Some (true, st') /\
    trace st' = trace st ++ new /\
    filter isErrorDialog new = [] /\
    frameBuffer st' = true /\
    xScaleMul st' = 32768 /\
    yScaleMul st' = 32768 /\
    forall r my,
      0 <= r <= 131070 ->
      mouse_x (readMouseXY SCREEN_W SCREEN_H r my st')
      = Z.min ((r + 1) / 2) (SCREEN_W - 1).
Proof.
  intros Hw Hh Hok Hpw Hph.
  assert (Hx : scaleMul SCREEN_W (window_w p) = Some 32768).
  { rewrite Hpw. unfold scaleMul.
    rewrite ScaleMore.double_window_scale
      by (change (2 ^ 52) with 4503599627370496; lia).
    vm_compute. reflexivity. }
  assert (Hy : scaleMul SCREEN_H (window_h p) = Some 32768).
  { rewrite Hph. unfold scaleMul.
    rewrite ScaleMore.double_window_scale
      by (change (2 ^ 52) with 4503599627370496; lia).
    vm_compute. reflexivity. }
  destruct (setupVideo_success p st 32768 32768 Hok Hx Hy)
    as (st' & new & Hv & Ht & _ & He & _ & Hmx & Hmy & Hf).
  exists st', new.
  split; [exact Hv|].
  split; [exact Ht|].
  split; [exact He|].
  split; [exact Hf|].
  split; [exact Hmx|].
  split; [exact Hmy|].
  intros r my Hr.
  unfold readMouseXY. cbn. rewrite Hmx.
  apply MapperMore.two_x_lemma; assumption.
Qed.

End WithWorld.

Section WithExtern.

Context {World : Type}.
Variable SCREEN_W SCREEN_H : Z.
Variable extern : guicall -> State World -> State World.
Variable msgBoxAnswer : list event -> MsgBoxResult.

Local Abbreviation run := (main SCREEN_W SCREEN_H extern msgBoxAnswer).

(** X9. When a setup step fails [main] returns 0 without ever starting
    the editor: apart from the setup calls, the error dialog and the
    final [SDL_Quit] it makes no call and no store (the GUI is not built,
    no event is polled, nothing is drawn or freed), what the platform
    would deliver to the loop is ignored, and the running flag is never
    raised. *)
Theorem main_failure_never_starts (p : Platform) (ticks : list Tick)
  (st : State World) (msg : string) :
  initFailure p = Some msg ->
  exists st' new,
    run p ticks st = Returned 0 st' /\
    trace st' = trace st ++ new /\
    forallb isStartupCall new = true /\
    filter isErrorDialog new = [Lib (SDL_ShowSimpleMessageBox msg)] /\
    run p ticks st = run p [] st /\
    programRunning st' = programRunning st.
Proof.
  intros H.
  destruct (setupVideo_failure SCREEN_W SCREEN_H p st msg H)
    as (st1 & pre & Hv & Ht & Hall & _ & _ & Hr & _).
  exists (lib SDL_Quit st1),
         (pre ++ [Lib (SDL_ShowSimpleMessageBox msg); Lib SDL_Quit]).
  split; [unfold main; rewrite Hv; reflexivity|].
  split.
  { rewrite trace_lib, Ht. rewrite <- !app_assoc. reflexivity. }
  split.
  { rewrite forallb_app. apply andb_true_iff. split; [|reflexivity].
    apply forallb_forall. intros e He.
    apply setupStep_startupCall.
    apply (proj1 (forallb_forall isSetupStep pre) Hall e He). }
  split.
  { rewrite filter_app.
    assert (Hnone : filter isErrorDialog pre = []).
    { clear - Hall. induction pre as [|e pre IH]; [reflexivity|].
      cbn in Hall. apply andb_true_iff in Hall. destruct Hall as [He Hl].
      cbn. unfold isSetupStep in He.
      apply andb_true_iff in He. destruct He as [He _].
      apply andb_true_iff in He. destruct He as [He _].
      apply andb_true_iff in He. destruct He as [_ He].
      apply negb_true_iff in He. rewrite He. apply IH. exact Hl. }
    rewrite Hnone. reflexivity. }
  split; [unfold main; rewrite Hv; reflexivity|].
  exact Hr.
Qed.

End WithExtern.


Lemma setupVideo_at_requested_size_witness :
  exists st' new,
    setupVideo 128 64 Sample.platform (initState false false tt)
      = Some (true, st') /\
    trace st' = trace (initState false false tt) ++ new /\
    filter isErrorDialog new = [] /\
    frameBuffer st' = true /\
    xScaleMul st' = 32768 /\
    yScaleMul st' = 32768 /\
    forall r my,
      0 <= r <= 131070 ->
      mouse_x (readMouseXY 128 64 r my st') = Z.min ((r + 1) / 2) (128 - 1).
Proof.
  apply (setupVideo_at_requested_size 128 64 Sample.platform
           (initState false false tt));
    [lia | lia | reflexivity | reflexivity | reflexivity].
Defined.

Lemma main_failure_never_starts_witness :
  exists st' new,
    main 128 64 Sample.extern Sample.answerYes Sample.noRenderer
      [Sample.quitTick] (initState false false tt) = Returned 0 st' /\
    trace st' = trace (initState false false tt) ++ new /\
    forallb isStartupCall new = true /\
    filter isErrorDialog new =
      [Lib (SDL_ShowSimpleMessageBox "Couldn't create an SDL2 renderer: %s")] /\
    main 128 64 Sample.extern Sample.answerYes Sample.noRenderer
      [Sample.quitTick] (initState false false tt)
    = main 128 64 Sample.extern Sample.answerYes Sample.noRenderer
        [] (initState false false tt) /\
    programRunning st' = false.
Proof.
  exact (main_failure_never_starts 128 64 Sample.extern Sample.answerYes
           Sample.noRenderer [Sample.quitTick] (initState false false tt)
           _ eq_refl).
Defined.

End SetupMore.

(** ** More on the event dispatcher *)

Module DispatchMore.
Import Model Spec Observe StateFacts QuitFacts LoopFacts SetupMore.

Section WithWorld.

Context {World : Type}.
Variable extern : guicall -> State World -> State World.
Variable msgBoxAnswer : list event -> MsgBoxResult.

Local Abbreviation dialog := (showAskToSaveDialog extern msgBoxAnswer).
Local Abbreviation handle := (dispatch extern msgBoxAnswer).
Local Abbreviation poll := (pollLoop extern msgBoxAnswer).
Local Abbreviation input := (handleInput extern msgBoxAnswer).

(** Events that all fail [P] are filtered away. *)
Lemma emits_none (P : event -> bool) (a b : State World) :
  emits (fun e => negb (P e)) a b ->
  exists new, trace b = trace a ++ new /\ filter P new = [].
Proof.
  intros (new & Htrace & Hall). exists new. split; [exact Htrace|].
  clear Htrace. induction new as [|e new IH]; [reflexivity|].
  cbn in Hall. apply andb_true_iff in Hall. destruct Hall as [He Hl].
  apply negb_true_iff in He. cbn. rewrite He. apply IH. exact Hl.
Qed.

(** What a quit signal can append. *)
Lemma quit_emits (P : event -> bool) (a b : State World) :
  (forall v, P (Store AllowSigterm v) = true) ->
  P (Store ProgramRunning false) = true ->
  P (Lib SDL_ShowMessageBox) = true ->
  P (Gui (savePalette 0)) = true ->
  emits P a b -> emits P a (handle SDL_QUIT b).
Proof.
  intros Hallow Hstop Hbox Hsave Hab. unfold dispatch.
  destruct (allowSigterm b); [|exact Hab].
  destruct (negb (configIsSaved b)).
  - unfold showAskToSaveDialog.
    destruct (msgBoxAnswer (trace (store AllowSigterm false b))) as [|id].
    + apply emits_store; [exact Hstop|].
      apply emits_store; [apply Hallow|].
      apply emits_lib; [exact Hbox|].
      apply emits_store; [apply Hallow|]. exact Hab.
    + apply emits_store; [exact Hstop|].
      destruct (id =? 1).
      * apply emits_gui; [exact Hsave|].
        apply emits_lib; [exact Hbox|].
        apply emits_store; [apply Hallow|]. exact Hab.
      * apply emits_lib; [exact Hbox|].
        apply emits_store; [apply Hallow|]. exact Hab.
  - apply emits_store; [exact Hstop|]. exact Hab.
Qed.

(** The handler calls one dispatch appends. *)
Lemma dispatch_forwards ev (st : State World) :
  exists dnew,
    trace (handle ev st) = trace st ++ dnew /\
    filter isInputHandlerCall dnew = forwarded ev.
Proof.
  destruct ev as [|sym|button|button|].
  - apply emits_none. apply quit_emits; try reflexivity. apply emits_refl.
  - exists [Gui (keyDownHandler sym)]. split; reflexivity.
  - cbn [dispatch forwarded]. destruct (button =? SDL_BUTTON_LEFT).
    + exists [Gui mouseButtonUpHandler]. split; reflexivity.
    + exists []. split; [symmetry; apply app_nil_r | reflexivity].
  - cbn [dispatch forwarded]. destruct (button =? SDL_BUTTON_LEFT).
    + exists [Gui mouseButtonDownHandler]. split; reflexivity.
    + exists []. split; [symmetry; apply app_nil_r | reflexivity].
  - exists []. split; [symmetry; apply app_nil_r | reflexivity].
Qed.

(** No dispatch polls. *)
Lemma dispatch_never_polls ev (st : State World) :
  exists dnew,
    trace (handle ev st) = trace st ++ dnew /\ filter isPoll dnew = [].
Proof.
  destruct ev as [|sym|button|button|].
  - apply emits_none. apply quit_emits; try reflexivity. apply emits_refl.
  - exists [Gui (keyDownHandler sym)]. split; reflexivity.
  - cbn [dispatch]. destruct (button =? SDL_BUTTON_LEFT).
    + exists [Gui mouseButtonUpHandler]. split; reflexivity.
    + exists []. split; [symmetry; apply app_nil_r | reflexivity].
  - cbn [dispatch]. destruct (button =? SDL_BUTTON_LEFT).
    + exists [Gui mouseButtonDownHandler]. split; reflexivity.
    + exists []. split; [symmetry; apply app_nil_r | reflexivity].
  - exists []. split; [symmetry; apply app_nil_r | reflexivity].
Qed.

(** A filter over the events of a whole drain, from the filter over the
    events of each dispatch. *)
Lemma poll_filter (P : event -> bool) (expect : SDL_Event -> list event) :
  (forall ev st, exists dnew,
      trace (handle ev st) = trace st ++ dnew /\ filter P dnew = expect ev) ->
  forall q (st : State World),
  exists new,
    trace (poll q st) = trace st ++ new /\
    filter P new =
      flat_map (fun ev => filter P [Lib SDL_PollEvent] ++ expect ev) q
        ++ filter P [Lib SDL_PollEvent].
Proof.
  intros Hd. induction q as [|ev q IH]; intros st; cbn [pollLoop flat_map].
  - exists [Lib SDL_PollEvent]. split; reflexivity.
  - destruct (Hd ev (lib SDL_PollEvent st)) as (dnew & Hdt & Hdf).
    destruct (IH (handle ev (lib SDL_PollEvent st))) as (new & Ht & Hf).
    exists ([Lib SDL_PollEvent] ++ dnew ++ new). split.
    + rewrite Ht, Hdt, trace_lib. rewrite <- !app_assoc. reflexivity.
    + rewrite !filter_app, Hdf, Hf. rewrite <- !app_assoc. reflexivity.
Qed.

(** X10. A drain of the event queue polls once per queued event and once
    more to find the queue empty; it forwards every key press and every
    press or release of the left button to its handler, in the order of
    the queue, and nothing else (other buttons, other events and quit
    signals reach no input handler); it then calls the three held-down
    handlers, in the order of lines 197-199. *)
Theorem handleInput_forwards_in_order (q : list SDL_Event) (st : State World) :
  exists new,
    trace (input q st) =
      trace st ++ new ++
        [Gui handleSlidersHeldDown; Gui handleRainbowHeldDown;
         Gui handleRainbowUpDownButtons] /\
    filter isInputHandlerCall new = flat_map forwarded q /\
    List.length (filter isPoll new) = S (List.length q).
Proof.
  destruct (poll_filter isInputHandlerCall forwarded dispatch_forwards q st)
    as (new & Ht & Hf).
  destruct (poll_filter isPoll (fun _ => []) dispatch_never_polls q st)
    as (new' & Ht' & Hf').
  assert (Heq : new' = new).
  { rewrite Ht in Ht'. apply app_inv_head in Ht'. symmetry. exact Ht'. }
  subst new'.
  exists new. split; [|split].
  - unfold handleInput. cbn. rewrite Ht. rewrite <- !app_assoc. reflexivity.
  - rewrite Hf. cbn [filter isInputHandlerCall app]. rewrite app_nil_r.
    clear. induction q as [|ev q IH]; [reflexivity|].
    cbn [flat_map]. rewrite IH. reflexivity.
  - rewrite Hf'. clear. induction q as [|ev q IH]; [reflexivity|].
    cbn [flat_map]. cbn in IH. cbn. rewrite IH. reflexivity.
Qed.

(** *** A drain while the guard is engaged *)

Lemma idle_filters (l : list event) :
  forallb isIdle l = true ->
  filter isModal l = [] /\ filter isSave l = [] /\ filter isStore l = [].
Proof.
  induction l as [|e l IH]; intros H; [repeat split|].
  cbn in H. apply andb_true_iff in H. destruct H as [He Hl].
  unfold isIdle, isCalm in He.
  apply andb_true_iff in He. destruct He as [He Hs].
  apply andb_true_iff in He. destruct He as [Hm Hv].
  apply negb_true_iff in Hm. apply negb_true_iff in Hv.
  apply negb_true_iff in Hs.
  destruct (IH Hl) as (IHm & IHv & IHs).
  cbn. rewrite Hm, Hv, Hs. repeat split; assumption.
Qed.

Lemma kept_gui c (st : State World) :
  keepsQuitFlags extern ->
  programRunning (gui extern c st) = programRunning st /\
  allowSigterm (gui extern c st) = allowSigterm st.
Proof.
  intros Hk. rewrite programRunning_gui, allowSigterm_gui. apply Hk.
Qed.

Lemma guarded_dispatch ev (a b : State World) :
  keepsQuitFlags extern ->
  emits isIdle a b -> allowSigterm b = false ->
  emits isIdle a (handle ev b) /\
  allowSigterm (handle ev b) = false /\
  programRunning (handle ev b) = programRunning b.
Proof.
  intros Hk Hab Hg.
  destruct ev as [|sym|button|button|].
  - rewrite quit_suppressed by exact Hg. repeat split; assumption.
  - cbn [dispatch]. destruct (kept_gui (keyDownHandler sym) b Hk) as [Hr Ha].
    split; [apply emits_gui; [reflexivity | exact Hab]|].
    split; [rewrite Ha; exact Hg | exact Hr].
  - cbn [dispatch]. destruct (button =? SDL_BUTTON_LEFT);
      [|repeat split; assumption].
    destruct (kept_gui mouseButtonUpHandler b Hk) as [Hr Ha].
    split; [apply emits_gui; [reflexivity | exact Hab]|].
    split; [rewrite Ha; exact Hg | exact Hr].
  - cbn [dispatch]. destruct (button =? SDL_BUTTON_LEFT);
      [|repeat split; assumption].
    destruct (kept_gui mouseButtonDownHandler b Hk) as [Hr Ha].
    split; [apply emits_gui; [reflexivity | exact Hab]|].
    split; [rewrite Ha; exact Hg | exact Hr].
  - repeat split; assumption.
Qed.

Lemma guarded_poll q :
  keepsQuitFlags extern ->
  forall a b : State World,
    emits isIdle a b -> allowSigterm b = false ->
    emits isIdle a (poll q b) /\
    allowSigterm (poll q b) = false /\
    programRunning (poll q b) = programRunning b.
Proof.
  intros Hk. induction q as [|ev q IH]; intros a b Hab Hg; cbn [pollLoop].
  - split; [apply emits_lib; [reflexivity | exact Hab]|].
    split; [exact Hg | reflexivity].
  - destruct (guarded_dispatch ev a (lib SDL_PollEvent b) Hk)
      as (He & Ha & Hr);
      [apply emits_lib; [reflexivity | exact Hab] | exact Hg |].
    destruct (IH a _ He Ha) as (He' & Ha' & Hr').
    split; [exact He'|]. split; [exact Ha'|].
    rewrite Hr', Hr. reflexivity.
Qed.

Lemma guarded_input q (a b : State World) :
  keepsQuitFlags extern ->
  emits isIdle a b -> allowSigterm b = false ->
  emits isIdle a (input q b) /\
  allowSigterm (input q b) = false /\
  programRunning (input q b) = programRunning b.
Proof.
  intros Hk Hab Hg. unfold handleInput.
  destruct (guarded_poll q Hk a b Hab Hg) as (He & Ha & Hr).
  destruct (kept_gui handleSlidersHeldDown (poll q b) Hk) as [Hr1 Ha1].
  destruct (kept_gui handleRainbowHeldDown
              (gui extern handleSlidersHeldDown (poll q b)) Hk) as [Hr2 Ha2].
  destruct (kept_gui handleRainbowUpDownButtons
              (gui extern handleRainbowHeldDown
                 (gui extern handleSlidersHeldDown (poll q b))) Hk)
    as [Hr3 Ha3].
  split.
  { repeat (apply emits_gui; [reflexivity|]). exact He. }
  split.
  - rewrite Ha3, Ha2, Ha1. exact Ha.
  - rewrite Hr3, Hr2, Hr1. exact Hr.
Qed.

(** X11. While the guard is engaged ([allowSigterm] false) a whole drain
    of the queue, whatever it holds, shows no dialog, never calls the save
    routine and writes none of the three flags; the guard stays engaged
    and the running flag keeps its value.  The routines of the other
    modules are taken to leave the two quit flags alone. *)
Theorem guarded_drain_is_inert (q : list SDL_Event) (st : State World) :
  keepsQuitFlags extern ->
  allowSigterm st = false ->
  exists new,
    trace (input q st) = trace st ++ new /\
    filter isModal new = [] /\
    filter isSave new = [] /\
    filter isStore new = [] /\
    allowSigterm (input q st) = false /\
    programRunning (input q st) = programRunning st.
Proof.
  intros Hk Hg.
  destruct (guarded_input q st st Hk (emits_refl isIdle st) Hg)
    as ((new & Ht & Hall) & Ha & Hr).
  destruct (idle_filters new Hall) as (Hm & Hv & Hs).
  exists new. repeat split; assumption.
Qed.

(** *** At most one dialog *)

Lemma calm_filters (l : list event) :
  forallb isCalm l = true -> filter isModal l = [] /\ filter isSave l = [].
Proof.
  induction l as [|e l IH]; intros H; [split; reflexivity|].
  cbn in H. apply andb_true_iff in H. destruct H as [He Hl].
  unfold isCalm in He. apply andb_true_iff in He. destruct He as [Hm Hv].
  apply negb_true_iff in Hm. apply negb_true_iff in Hv.
  destruct (IH Hl) as (IHm & IHv).
  cbn. rewrite Hm, Hv. split; assumption.
Qed.

Lemma idle_calm e : isIdle e = true -> isCalm e = true.
Proof.
  unfold isIdle. intros H. apply andb_true_iff in H. apply H.
Qed.

Lemma asks_of_calm (a b : State World) :
  emits isCalm a b -> asksAtMostOnce a b.
Proof.
  intros (new & Ht & Hall). destruct (calm_filters new Hall) as [Hm Hv].
  exists new. rewrite Hm, Hv. cbn.
  split; [exact Ht|]. split; [lia|]. split; [lia|].
  intros Hcontra. exfalso. apply Hcontra. reflexivity.
Qed.

Lemma asks_prepend (a b c : State World) :
  emits isCalm a b -> asksAtMostOnce b c -> asksAtMostOnce a c.
Proof.
  intros (n1 & Ht1 & Hall) (n2 & Ht2 & Hm & Hv & Hr).
  destruct (calm_filters n1 Hall) as [Hm1 Hv1].
  exists (n1 ++ n2).
  rewrite !filter_app, Hm1, Hv1. cbn [app].
  split; [rewrite Ht2, Ht1; symmetry; apply app_assoc|].
  split; [exact Hm|]. split; [exact Hv|]. exact Hr.
Qed.

Lemma asks_append (a b c : State World) :
  asksAtMostOnce a b -> emits isCalm b c ->
  (programRunning b = false -> programRunning c = false) ->
  asksAtMostOnce a c.
Proof.
  intros (n1 & Ht1 & Hm & Hv & Hr) (n2 & Ht2 & Hall) Hstop.
  destruct (calm_filters n2 Hall) as [Hm2 Hv2].
  exists (n1 ++ n2).
  rewrite !filter_app, Hm2, Hv2, !app_nil_r.
  split; [rewrite Ht2, Ht1; symmetry; apply app_assoc|].
  split; [exact Hm|]. split; [exact Hv|].
  intros Hshown. apply Hstop. apply Hr. exact Hshown.
Qed.

Lemma asks_seq (a b c : State World) :
  asksAtMostOnce a b -> asksAtMostOnce b c ->
  (programRunning b = false -> c = b) ->
  asksAtMostOnce a c.
Proof.
  intros Hab Hbc Hstop.
  destruct Hab as (n1 & Ht1 & Hm & Hv & Hr).
  destruct (filter isModal n1) as [|e l] eqn:Hshown.
  - cbn in Hv.
    assert (Hv1 : filter isSave n1 = []).
    { destruct (filter isSave n1); [reflexivity | cbn in Hv; lia]. }
    destruct Hbc as (n2 & Ht2 & Hm2 & Hv2 & Hr2).
    exists (n1 ++ n2).
    rewrite !filter_app, Hshown, Hv1. cbn [app].
    split; [rewrite Ht2, Ht1; symmetry; apply app_assoc|].
    split; [exact Hm2|]. split; [exact Hv2|]. exact Hr2.
  - assert (Hb : programRunning b = false).
    { apply Hr. discriminate. }
    rewrite (Hstop Hb).
    exists n1. rewrite Hshown.
    split; [exact Ht1|]. split; [exact Hm|]. split; [exact Hv|].
    intros _. exact Hb.
Qed.

(** The dialog routine, when the dialog can be shown. *)
Lemma dialog_asks (b : State World) :
  keepsQuitFlags extern -> neverFails msgBoxAnswer ->
  asksAtMostOnce b (dialog b) /\
  allowSigterm (dialog b) = allowSigterm b /\
  programRunning (dialog b) = false.
Proof.
  intros Hk Hn.
  split; [|split; [|apply dialog_stops]].
  - exists (Lib SDL_ShowMessageBox ::
            match msgBoxAnswer (trace b) with
            | MsgBoxFailed =>
                [Store AllowSigterm true; Store ProgramRunning false]
            | MsgBoxButton id =>
                if id =? 1
                then [Gui (savePalette 0); Store ProgramRunning false]
                else [Store ProgramRunning false]
            end).
    split; [apply dialog_trace|].
    destruct (msgBoxAnswer (trace b)) as [|id] eqn:Hans;
      [exfalso; apply (Hn (trace b)); exact Hans|].
    destruct (id =? 1); cbn;
      (split; [lia|]); (split; [lia|]); intros _; apply dialog_stops.
  - unfold showAskToSaveDialog.
    destruct (msgBoxAnswer (trace b)) as [|id] eqn:Hans;
      [exfalso; apply (Hn (trace b)); exact Hans|].
    destruct (id =? 1); [|reflexivity].
    cbn. destruct (Hk (savePalette 0) (lib SDL_ShowMessageBox b)) as [_ Ha].
    rewrite Ha. reflexivity.
Qed.

Lemma poll_asks_once q :
  keepsQuitFlags extern -> neverFails msgBoxAnswer ->
  forall st : State World, asksAtMostOnce st (poll q st).
Proof.
  intros Hk Hn. induction q as [|ev q IH]; intros st; cbn [pollLoop].
  - apply asks_of_calm. apply emits_lib; [reflexivity | apply emits_refl].
  - assert (Hp : emits isCalm st (lib SDL_PollEvent st))
      by (apply emits_lib; [reflexivity | apply emits_refl]).
    destruct ev as [|sym|button|button|]; cbn [dispatch].
    + destruct (allowSigterm (lib SDL_PollEvent st)) eqn:Ha;
        [|apply (asks_prepend _ _ _ Hp); apply IH].
      destruct (negb (configIsSaved (lib SDL_PollEvent st))).
      * set (g := store AllowSigterm false (lib SDL_PollEvent st)).
        destruct (dialog_asks g Hk Hn) as (Hd & Hda & Hdr).
        assert (Hg : allowSigterm (dialog g) = false)
          by (rewrite Hda; reflexivity).
        destruct (guarded_poll q Hk (dialog g) (dialog g)
                    (emits_refl isIdle _) Hg) as (He & _ & Hr).
        apply (asks_prepend st g).
        { subst g. apply emits_store; [reflexivity | exact Hp]. }
        apply (asks_append g (dialog g)); [exact Hd | |].
        { apply (emits_weaken isIdle isCalm); [exact idle_calm | exact He]. }
        intros _. rewrite Hr. exact Hdr.
      * apply (asks_prepend st (store ProgramRunning false
                                  (lib SDL_PollEvent st))); [|apply IH].
        apply emits_store; [reflexivity | exact Hp].
    + apply (asks_prepend st (gui extern (keyDownHandler sym)
                                (lib SDL_PollEvent st))); [|apply IH].
      apply emits_gui; [reflexivity | exact Hp].
    + destruct (button =? SDL_BUTTON_LEFT).
      * apply (asks_prepend st (gui extern mouseButtonUpHandler
                                  (lib SDL_PollEvent st))); [|apply IH].
        apply emits_gui; [reflexivity | exact Hp].
      * apply (asks_prepend _ _ _ Hp); apply IH.
    + destruct (button =? SDL_BUTTON_LEFT).
      * apply (asks_prepend st (gui extern mouseButtonDownHandler
                                  (lib SDL_PollEvent st))); [|apply IH].
        apply emits_gui; [reflexivity | exact Hp].
      * apply (asks_prepend _ _ _ Hp); apply IH.
    + apply (asks_prepend _ _ _ Hp); apply IH.
Qed.

Lemma input_asks_once q (st : State World) :
  keepsQuitFlags extern -> neverFails msgBoxAnswer ->
  asksAtMostOnce st (input q st).
Proof.
  intros Hk Hn. unfold handleInput.
  apply (asks_append st (poll q st)); [apply poll_asks_once; assumption | |].
  - repeat (apply emits_gui; [reflexivity|]). apply emits_refl.
  - intros Hstop.
    repeat (apply (stopped_gui extern); [exact Hk|]). exact Hstop.
Qed.

End WithWorld.

End DispatchMore.

(** ** More on the frame loop and on whole runs *)

Module LoopMore.
Import Model Spec Observe StateFacts QuitFacts LoopFacts SetupMore DispatchMore.

Lemma filter_none (P Q : event -> bool) (l : list event) :
  (forall e, P e = true -> Q e = false) ->
  forallb P l = true -> filter Q l = [].
Proof.
  intros Himp. induction l as [|e l IH]; intros H; [reflexivity|].
  cbn in H. apply andb_true_iff in H. destruct H as [He Hl].
  cbn. rewrite (Himp e He). apply IH. exact Hl.
Qed.

Lemma setupCall_calm e : isSetupCall e = true -> isCalm e = true.
Proof. destruct e as [f b|c|c]; try destruct c; cbn; congruence. Qed.

Lemma setupCall_keeps_resources e :
  isSetupCall e = true -> isQuitCall e = false /\ isFreeFrameBuffer e = false.
Proof. destruct e as [f b|c|c]; try destruct c; cbn; intros H; split; congruence. Qed.

Lemma passEvent_keeps_resources e :
  isPassEvent e = true -> isQuitCall e = false /\ isFreeFrameBuffer e = false.
Proof. destruct e as [f b|c|c]; try destruct c; cbn; intros H; split; congruence. Qed.

Lemma setupCall_startupCall e : isSetupCall e = true -> isStartupCall e = true.
Proof.
  unfold isSetupCall. intros H. apply andb_true_iff in H. apply H.
Qed.

Section WithWorld.

Context {World : Type}.
Variable SCREEN_W SCREEN_H : Z.
Variable extern : guicall -> State World -> State World.
Variable msgBoxAnswer : list event -> MsgBoxResult.

Local Abbreviation handle := (dispatch extern msgBoxAnswer).
Local Abbreviation poll := (pollLoop extern msgBoxAnswer).
Local Abbreviation input := (handleInput extern msgBoxAnswer).
Local Abbreviation mouse := (readMouseXY SCREEN_W SCREEN_H).
Local Abbreviation pass := (frame SCREEN_W SCREEN_H extern msgBoxAnswer).
Local Abbreviation loop := (frameLoop SCREEN_W SCREEN_H extern msgBoxAnswer).
Local Abbreviation video := (@setupVideo World SCREEN_W SCREEN_H).
Local Abbreviation enter := (enterLoop extern).
Local Abbreviation run := (main SCREEN_W SCREEN_H extern msgBoxAnswer).
Local Abbreviation several :=
  (passes SCREEN_W SCREEN_H extern msgBoxAnswer).

(** *** What the parts of a run append *)

Lemma emits_redrawIfPending P (a b : State World) :
  P (Store RedrawScreen false) = true ->
  P (Lib SDL_UpdateTexture) = true ->
  P (Lib SDL_RenderClear) = true ->
  P (Lib SDL_RenderCopy) = true ->
  P (Lib SDL_RenderPresent) = true ->
  emits P a b -> emits P a (redrawIfPending b).
Proof.
  intros H0 H1 H2 H3 H4 Hab. unfold redrawIfPending.
  destruct (redrawScreen b); [|exact Hab].
  unfold present.
  apply emits_lib; [exact H4|]. apply emits_lib; [exact H3|].
  apply emits_lib; [exact H2|]. apply emits_lib; [exact H1|].
  apply emits_store; [exact H0|]. exact Hab.
Qed.

Lemma setupVideo_emits (p : Platform) (st st1 : State World) b :
  video p st = Some (b, st1) -> emits isSetupCall st st1.
Proof.
  unfold setupVideo, showErrorMsgBox. intros H. cbv zeta in H.
  destruct (5 <=? sdl_patchlevel p);
    repeat match type of H with
           | (if ?c then _ else _) = _ => destruct c
           | match ?c with Some _ => _ | None => _ end = _ => destruct c
           end;
    try discriminate H; injection H as <- <-;
    repeat first [ apply emits_refl
                 | apply emits_set_frameBuffer
                 | apply emits_set_scale
                 | apply emits_lib; [reflexivity|] ].
Qed.

Lemma emits_enterLoop P (a b : State World) :
  P (Gui setupGUI) = true ->
  P (Store RedrawScreen true) = true ->
  P (Store ProgramRunning true) = true ->
  emits P a b -> emits P a (enter b).
Proof.
  intros H1 H2 H3 Hab. unfold enterLoop.
  apply emits_store; [exact H3|]. apply emits_store; [exact H2|].
  apply emits_gui; [exact H1|]. exact Hab.
Qed.

Lemma emits_shutdown P (a b : State World) :
  P (Lib Free_loadedFile) = true ->
  P (Lib Free_frameBuffer) = true ->
  P (Lib SDL_Quit) = true ->
  emits P a b -> emits P a (shutdown b).
Proof.
  intros H1 H2 H3 Hab. unfold shutdown.
  apply emits_lib; [exact H3|]. apply emits_lib; [exact H2|].
  destruct (loadedFile b); [apply emits_lib; [exact H1|]|]; exact Hab.
Qed.

(** *** One dialog at most *)

Lemma frame_asks_once t (st : State World) :
  keepsQuitFlags extern -> neverFails msgBoxAnswer ->
  asksAtMostOnce st (pass t st).
Proof.
  intros Hk Hn. unfold frame.
  apply (asks_prepend st (mouse (raw_mx t) (raw_my t) st)).
  { unfold readMouseXY. apply emits_set_mouse.
    repeat (apply emits_lib; [reflexivity|]). apply emits_refl. }
  apply (asks_append _ (input (queue t) (mouse (raw_mx t) (raw_my t) st))).
  - apply input_asks_once; assumption.
  - apply emits_lib; [reflexivity|].
    apply emits_redrawIfPending; try reflexivity. apply emits_refl.
  - intros Hstop. rewrite programRunning_lib.
    rewrite programRunning_redrawIfPending. exact Hstop.
Qed.

Lemma loop_asks_once ticks :
  keepsQuitFlags extern -> neverFails msgBoxAnswer ->
  forall st st' : State World,
    loop ticks st = Some st' -> asksAtMostOnce st st'.
Proof.
  intros Hk Hn. induction ticks as [|t ticks IH]; intros st st' H;
    cbn [frameLoop] in H.
  - destruct (programRunning st); [discriminate H|].
    injection H as <-. apply asks_of_calm. apply emits_refl.
  - destruct (programRunning st).
    + apply (asks_seq st (pass t st)).
      * apply frame_asks_once; assumption.
      * apply IH. exact H.
      * intros Hstop.
        rewrite (frameLoop_stopped SCREEN_W SCREEN_H extern msgBoxAnswer
                   ticks (pass t st) Hstop) in H.
        injection H as <-. reflexivity.
    + injection H as <-. apply asks_of_calm. apply emits_refl.
Qed.

(** X12. In a run of [main] that returns, if the dialog can always be
    shown, the user is asked at most once and the save routine is called
    at most once, and only when the dialog was shown.  The routines of
    the other modules are taken to leave the two quit flags alone. *)
Theorem run_asks_at_most_once (p : Platform) (ticks : list Tick)
  (st st' : State World) (code : Z) :
  keepsQuitFlags extern ->
  neverFails msgBoxAnswer ->
  run p ticks st = Returned code st' ->
  exists new,
    trace st' = trace st ++ new /\
    (List.length (filter isModal new) <= 1)%nat /\
    (List.length (filter isSave new)
     <= List.length (filter isModal new))%nat.
Proof.
  intros Hk Hn H.
  assert (Hasks : asksAtMostOnce st st').
  { unfold main in H.
    destruct (video p st) as [[[|] st1]|] eqn:Hv; [| |discriminate H].
    - destruct (loop ticks (enter st1)) as [st2|] eqn:Hl; [|discriminate H].
      injection H as _ <-.
      apply (asks_prepend st (enter st1)).
      { apply emits_enterLoop; try reflexivity.
        apply (emits_weaken isSetupCall isCalm); [exact setupCall_calm|].
        apply (setupVideo_emits p st st1 true Hv). }
      apply (asks_append _ st2).
      + apply (loop_asks_once ticks Hk Hn). exact Hl.
      + apply emits_shutdown; try reflexivity. apply emits_refl.
      + intros Hstop. unfold shutdown.
        destruct (loadedFile st2); exact Hstop.
    - injection H as _ <-. apply asks_of_calm.
      apply emits_lib; [reflexivity|].
      apply (emits_weaken isSetupCall isCalm); [exact setupCall_calm|].
      apply (setupVideo_emits p st st1 false Hv). }
  destruct Hasks as (new & Ht & Hm & Hv & _).
  exists new. split; [exact Ht|]. split; assumption.
Qed.

(** *** The loop and the quit signal *)

Lemma quitfree_dispatch ev (st : State World) :
  keepsQuitFlags extern -> ev <> SDL_QUIT ->
  programRunning (handle ev st) = programRunning st.
Proof.
  intros Hk Hne. destruct ev as [|sym|button|button|]; cbn [dispatch].
  - exfalso. apply Hne. reflexivity.
  - apply (kept_gui extern). exact Hk.
  - destruct (button =? SDL_BUTTON_LEFT); [|reflexivity].
    apply (kept_gui extern). exact Hk.
  - destruct (button =? SDL_BUTTON_LEFT); [|reflexivity].
    apply (kept_gui extern). exact Hk.
  - reflexivity.
Qed.

Lemma quitfree_poll q :
  keepsQuitFlags extern -> ~ In SDL_QUIT q ->
  forall st : State World, programRunning (poll q st) = programRunning st.
Proof.
  intros Hk. induction q as [|ev q IH]; intros Hq st; cbn [pollLoop].
  - reflexivity.
  - rewrite IH by (intros Hin; apply Hq; right; exact Hin).
    rewrite quitfree_dispatch; [reflexivity | exact Hk |].
    intros Heq. apply Hq. left. exact Heq.
Qed.

Lemma quitfree_frame t (st : State World) :
  keepsQuitFlags extern -> quitFree t ->
  programRunning (pass t st) = programRunning st.
Proof.
  intros Hk Hq. unfold frame.
  rewrite programRunning_lib, programRunning_redrawIfPending.
  unfold handleInput.
  destruct (kept_gui extern handleRainbowUpDownButtons
              (gui extern handleRainbowHeldDown
                 (gui extern handleSlidersHeldDown
                    (poll (queue t) (mouse (raw_mx t) (raw_my t) st)))) Hk)
    as [H3 _].
  destruct (kept_gui extern handleRainbowHeldDown
              (gui extern handleSlidersHeldDown
                 (poll (queue t) (mouse (raw_mx t) (raw_my t) st))) Hk)
    as [H2 _].
  destruct (kept_gui extern handleSlidersHeldDown
              (poll (queue t) (mouse (raw_mx t) (raw_my t) st)) Hk)
    as [H1 _].
  rewrite H3, H2, H1.
  rewrite quitfree_poll by assumption.
  reflexivity.
Qed.

(** Passes without a quit signal are all run and leave the loop running. *)
Lemma loop_prefix pre :
  keepsQuitFlags extern -> Forall quitFree pre ->
  forall (rest : list Tick) (st : State World),
    programRunning st = true ->
    loop (pre ++ rest) st = loop rest (several pre st) /\
    programRunning (several pre st) = true /\
    (guardInvariant st -> guardInvariant (several pre st)).
Proof.
  intros Hk. induction pre as [|t pre IH]; intros Hq rest st Hr.
  - cbn. split; [reflexivity|]. split; [exact Hr|]. intros Hi; exact Hi.
  - inversion Hq as [|? ? Ht Hpre]; subst.
    assert (Hr' : programRunning (pass t st) = true).
    { rewrite quitfree_frame by assumption. exact Hr. }
    destruct (IH Hpre rest (pass t st) Hr') as (Hl & Hrun & Hinv).
    cbn [app frameLoop]. rewrite Hr.
    split; [exact Hl|]. split; [exact Hrun|].
    intros Hi. apply Hinv.
    apply guardInvariant_frame; assumption.
Qed.

(** X13. The frame loop never stops on its own: after a successful
    startup, as long as the platform delivers no quit signal, [main] is
    still in the loop after every delivered pass.  The routines of the
    other modules are taken to leave the two quit flags alone. *)
Theorem loop_runs_until_quit (p : Platform) (ticks : list Tick)
  (st st1 : State World) :
  keepsQuitFlags extern ->
  video p st = Some (true, st1) ->
  Forall quitFree ticks ->
  run p ticks st = StillRunning /\
  programRunning (several ticks (enter st1)) = true.
Proof.
  intros Hk Hv Hq.
  destruct (loop_prefix ticks Hk Hq [] (enter st1) eq_refl)
    as (Hl & Hr & _).
  rewrite app_nil_r in Hl.
  split; [|exact Hr].
  unfold main. rewrite Hv, Hl. cbn [frameLoop]. rewrite Hr. reflexivity.
Qed.

(** X14. [main] returns at the end of the first pass whose queue holds a
    quit signal: the passes before it are all run, that pass is run to
    its end (the rest of its queue is drained, the held-down handlers
    run, the screen is redrawn if asked, the pass sleeps), and whatever
    the platform would deliver afterwards is never looked at. *)
Theorem run_returns_after_first_quit (p : Platform)
  (pre post : list Tick) (t : Tick) (st st1 : State World) :
  keepsQuitFlags extern ->
  allowSigterm st = true ->
  video p st = Some (true, st1) ->
  Forall quitFree pre ->
  In SDL_QUIT (queue t) ->
  run p (pre ++ t :: post) st
  = Returned 0 (shutdown (pass t (several pre (enter st1)))).
Proof.
  intros Hk Ha Hv Hq Hin.
  assert (Hinv : guardInvariant (enter st1)).
  { apply guardInvariant_enterLoop; [exact Hk|].
    rewrite (setupVideo_allowSigterm SCREEN_W SCREEN_H p st st1 true Hv).
    exact Ha. }
  destruct (loop_prefix pre Hk Hq (t :: post) (enter st1) eq_refl)
    as (Hl & Hr & Hi).
  unfold main. rewrite Hv, Hl. cbn [frameLoop]. rewrite Hr.
  rewrite frameLoop_stopped; [reflexivity|].
  apply quit_in_queue_stops_frame; [exact Hk | apply Hi; exact Hinv | exact Hin].
Qed.

(** *** The shape of a complete run *)

Lemma pass_dispatch ev (a b : State World) :
  emits isPassEvent a b -> emits isPassEvent a (handle ev b).
Proof.
  intros Hab. destruct ev as [|sym|button|button|].
  - apply quit_emits; try reflexivity. exact Hab.
  - cbn [dispatch]. apply emits_gui; [reflexivity | exact Hab].
  - cbn [dispatch]. destruct (button =? SDL_BUTTON_LEFT); [|exact Hab].
    apply emits_gui; [reflexivity | exact Hab].
  - cbn [dispatch]. destruct (button =? SDL_BUTTON_LEFT); [|exact Hab].
    apply emits_gui; [reflexivity | exact Hab].
  - exact Hab.
Qed.

Lemma pass_poll q :
  forall a b : State World,
    emits isPassEvent a b -> emits isPassEvent a (poll q b).
Proof.
  induction q as [|ev q IH]; intros a b Hab; cbn [pollLoop].
  - apply emits_lib; [reflexivity | exact Hab].
  - apply IH. apply pass_dispatch. apply emits_lib; [reflexivity | exact Hab].
Qed.

Lemma pass_frame t (a b : State World) :
  emits isPassEvent a b -> emits isPassEvent a (pass t b).
Proof.
  intros Hab. unfold frame.
  apply emits_lib; [reflexivity|].
  apply emits_redrawIfPending; try reflexivity.
  unfold handleInput.
  repeat (apply emits_gui; [reflexivity|]).
  apply pass_poll.
  unfold readMouseXY. apply emits_set_mouse.
  repeat (apply emits_lib; [reflexivity|]). exact Hab.
Qed.

Lemma pass_loop ticks :
  forall a b st' : State World,
    emits isPassEvent a b -> loop ticks b = Some st' ->
    emits isPassEvent a st'.
Proof.
  induction ticks as [|t ticks IH]; intros a b st' Hab H;
    cbn [frameLoop] in H.
  - destruct (programRunning b); [discriminate H|].
    injection H as <-. exact Hab.
  - destruct (programRunning b).
    + apply (IH a (pass t b)); [apply pass_frame; exact Hab | exact H].
    + injection H as <-. exact Hab.
Qed.

(** X15. A run of [main] that returns after a successful startup has this
    shape: the setup calls; the GUI is built and the redraw and running
    flags are raised, once; the passes of the loop, which only read the
    pointer, dispatch events, redraw and sleep; the loaded file is freed
    if there is one; the frame buffer is freed and [SDL_Quit] called.
    In particular the frame buffer is freed exactly once and [SDL_Quit] is
    called exactly once, as the last call. *)
Theorem run_shape (p : Platform) (ticks : list Tick)
  (st st1 st' : State World) (code : Z) :
  video p st = Some (true, st1) ->
  run p ticks st = Returned code st' ->
  exists startup during closing,
    trace st' =
      trace st ++ startup ++
        [Gui setupGUI; Store RedrawScreen true; Store ProgramRunning true]
        ++ during ++ closing ++ [Lib Free_frameBuffer; Lib SDL_Quit] /\
    forallb isSetupCall startup = true /\
    forallb isPassEvent during = true /\
    (closing = [] \/ closing = [Lib Free_loadedFile]) /\
    filter isFreeFrameBuffer
      (startup ++
        [Gui setupGUI; Store RedrawScreen true; Store ProgramRunning true]
        ++ during ++ closing ++ [Lib Free_frameBuffer; Lib SDL_Quit])
    = [Lib Free_frameBuffer] /\
    filter isQuitCall
      (startup ++
        [Gui setupGUI; Store RedrawScreen true; Store ProgramRunning true]
        ++ during ++ closing ++ [Lib Free_frameBuffer; Lib SDL_Quit])
    = [Lib SDL_Quit].
Proof.
  intros Hv H. unfold main in H. rewrite Hv in H.
  destruct (loop ticks (enter st1)) as [st2|] eqn:Hl; [|discriminate H].
  injection H as _ <-.
  destruct (setupVideo_emits p st st1 true Hv) as (startup & Hts & Hs).
  destruct (pass_loop ticks (enter st1) (enter st1) st2
              (emits_refl isPassEvent _) Hl) as (during & Htd & Hd).
  exists startup, during,
         (if loadedFile st2 then [Lib Free_loadedFile] else []).
  assert (Hfs : filter isFreeFrameBuffer startup = []).
  { apply (filter_none isSetupCall); [|exact Hs].
    intros e He. apply setupCall_keeps_resources. exact He. }
  assert (Hqs : filter isQuitCall startup = []).
  { apply (filter_none isSetupCall); [|exact Hs].
    intros e He. apply setupCall_keeps_resources. exact He. }
  assert (Hfd : filter isFreeFrameBuffer during = []).
  { apply (filter_none isPassEvent); [|exact Hd].
    intros e He. apply passEvent_keeps_resources. exact He. }
  assert (Hqd : filter isQuitCall during = []).
  { apply (filter_none isPassEvent); [|exact Hd].
    intros e He. apply passEvent_keeps_resources. exact He. }
  split.
  { unfold shutdown. destruct (loadedFile st2); cbn;
      rewrite Htd; unfold enterLoop; cbn; rewrite Hts;
      rewrite <- !app_assoc; reflexivity. }
  split; [exact Hs|]. split; [exact Hd|].
  split; [destruct (loadedFile st2); [right | left]; reflexivity|].
  split.
  - rewrite !filter_app, Hfs, Hfd. destruct (loadedFile st2); reflexivity.
  - rewrite !filter_app, Hqs, Hqd. destruct (loadedFile st2); reflexivity.
Qed.

(** X16. A redraw that is pending when a pass starts is served in that
    pass: the four upload and present calls are made once and the pass
    ends with the flag cleared.  The routines of the other modules are
    taken never to lower the redraw flag. *)
Theorem pending_redraw_is_served (t : Tick) (st : State World) :
  keepsRedrawPending extern ->
  redrawScreen st = true ->
  exists new,
    trace (pass t st) = trace st ++ new /\
    filter isRender new = renderCalls /\
    redrawScreen (pass t st) = false.
Proof.
  intros Hk Hpending.
  destruct (frame_events SCREEN_W SCREEN_H extern msgBoxAnswer t st)
    as (new & Htrace & Hrender & _).
  exists new. split; [exact Htrace|]. split.
  - rewrite Hrender.
    rewrite (redraw_kept_input extern msgBoxAnswer (queue t)
               (mouse (raw_mx t) (raw_my t) st) Hk Hpending).
    reflexivity.
  - unfold frame. rewrite redrawScreen_lib.
    apply redrawScreen_redrawIfPending.
Qed.

End WithWorld.

Lemma sample_neverFails : neverFails Sample.answerYes.
Proof. intros tr H. discriminate H. Qed.

Lemma busyTick_quitFree : quitFree Sample.busyTick.
Proof. intros [H|[H|[H|[]]]]; discriminate H. Qed.

Lemma sample_startup :
  exists st1,
    setupVideo 128 64 Sample.platform (initState false false tt)
    = Some (true, st1).
Proof. eexists. vm_compute. reflexivity. Qed.

Lemma guarded_drain_is_inert_witness :
  exists new,
    trace (handleInput Sample.extern Sample.answerYes
             [SDL_QUIT; SDL_KEYDOWN 97; SDL_QUIT]
             (store AllowSigterm false Sample.unsaved))
    = trace (store AllowSigterm false Sample.unsaved) ++ new /\
    filter isModal new = [] /\
    filter isSave new = [] /\
    filter isStore new = [] /\
    allowSigterm (handleInput Sample.extern Sample.answerYes
                    [SDL_QUIT; SDL_KEYDOWN 97; SDL_QUIT]
                    (store AllowSigterm false Sample.unsaved)) = false /\
    programRunning (handleInput Sample.extern Sample.answerYes
                      [SDL_QUIT; SDL_KEYDOWN 97; SDL_QUIT]
                      (store AllowSigterm false Sample.unsaved))
    = programRunning (store AllowSigterm false Sample.unsaved).
Proof.
  exact (guarded_drain_is_inert Sample.extern Sample.answerYes
           [SDL_QUIT; SDL_KEYDOWN 97; SDL_QUIT]
           (store AllowSigterm false Sample.unsaved)
           sample_keepsQuitFlags eq_refl).
Defined.

Lemma run_asks_at_most_once_witness :
  exists st' new,
    main 128 64 Sample.extern Sample.answerYes Sample.platform
      [Sample.busyTick; Sample.quitTick] (initState false false tt)
    = Returned 0 st' /\
    trace st' = trace (initState false false tt) ++ new /\
    (List.length (filter isModal new) <= 1)%nat /\
    (List.length (filter isSave new)
     <= List.length (filter isModal new))%nat.
Proof.
  assert (Hrun : exists st',
             main 128 64 Sample.extern Sample.answerYes Sample.platform
               [Sample.busyTick; Sample.quitTick] (initState false false tt)
             = Returned 0 st')
    by (eexists; vm_compute; reflexivity).
  destruct Hrun as [st' Hrun].
  destruct (run_asks_at_most_once 128 64 Sample.extern Sample.answerYes
              Sample.platform [Sample.busyTick; Sample.quitTick]
              (initState false false tt) st' 0
              sample_keepsQuitFlags sample_neverFails Hrun)
    as (new & Ht & Hm & Hv).
  exists st', new.
  exact (conj Hrun (conj Ht (conj Hm Hv))).
Defined.

Lemma loop_runs_until_quit_witness :
  exists st1,
    main 128 64 Sample.extern Sample.answerYes Sample.platform
      [Sample.busyTick; Sample.busyTick] (initState false false tt)
    = StillRunning /\
    programRunning
      (passes 128 64 Sample.extern Sample.answerYes
         [Sample.busyTick; Sample.busyTick]
         (enterLoop Sample.extern st1)) = true.
Proof.
  destruct sample_startup as [st1 Hv].
  exists st1.
  exact (loop_runs_until_quit 128 64 Sample.extern Sample.answerYes
           Sample.platform [Sample.busyTick; Sample.busyTick]
           (initState false false tt) st1
           sample_keepsQuitFlags Hv
           (Forall_cons _ busyTick_quitFree
              (Forall_cons _ busyTick_quitFree (Forall_nil _)))).
Defined.

Lemma run_returns_after_first_quit_witness :
  exists st1,
    main 128 64 Sample.extern Sample.answerYes Sample.platform
      ([Sample.busyTick] ++ Sample.quitTick :: [Sample.busyTick])
      (initState false false tt)
    = Returned 0
        (shutdown
           (frame 128 64 Sample.extern Sample.answerYes Sample.quitTick
              (passes 128 64 Sample.extern Sample.answerYes [Sample.busyTick]
                 (enterLoop Sample.extern st1)))).
Proof.
  destruct sample_startup as [st1 Hv].
  exists st1.
  exact (run_returns_after_first_quit 128 64 Sample.extern Sample.answerYes
           Sample.platform [Sample.busyTick] [Sample.busyTick]
           Sample.quitTick (initState false false tt) st1
           sample_keepsQuitFlags eq_refl Hv
           (Forall_cons _ busyTick_quitFree (Forall_nil _))
           (or_introl eq_refl)).
Defined.

Lemma run_shape_witness :
  exists st' startup during closing,
    main 128 64 Sample.extern Sample.answerYes Sample.platform
      [Sample.busyTick; Sample.quitTick] (initState false false tt)
    = Returned 0 st' /\
    trace st' =
      trace (initState false false tt) ++ startup ++
        [Gui setupGUI; Store RedrawScreen true; Store ProgramRunning true]
        ++ during ++ closing ++ [Lib Free_frameBuffer; Lib SDL_Quit] /\
    forallb isSetupCall startup = true /\
    forallb isPassEvent during = true.
Proof.
  destruct sample_startup as [st1 Hv].
  assert (Hrun : exists st',
             main 128 64 Sample.extern Sample.answerYes Sample.platform
               [Sample.busyTick; Sample.quitTick] (initState false false tt)
             = Returned 0 st')
    by (eexists; vm_compute; reflexivity).
  destruct Hrun as [st' Hrun].
  destruct (run_shape 128 64 Sample.extern Sample.answerYes Sample.platform
              [Sample.busyTick; Sample.quitTick] (initState false false tt)
              st1 st' 0 Hv Hrun)
    as (startup & during & closing & Ht & Hs & Hd & _).
  exists st', startup, during, closing.
  exact (conj Hrun (conj Ht (conj Hs Hd))).
Defined.

Lemma pending_redraw_is_served_witness :
  exists new,
    trace (frame 128 64 Sample.extern Sample.answerYes Sample.quitTick
             (set_flag RedrawScreen true Sample.unsaved))
    = trace (set_flag RedrawScreen true Sample.unsaved) ++ new /\
    filter isRender new = renderCalls /\
    redrawScreen
      (frame 128 64 Sample.extern Sample.answerYes Sample.quitTick
         (set_flag RedrawScreen true Sample.unsaved)) = false.
Proof.
  exact (pending_redraw_is_served 128 64 Sample.extern Sample.answerYes
           Sample.quitTick (set_flag RedrawScreen true Sample.unsaved)
           sample_keepsRedrawPending eq_refl).
Defined.

End LoopMore.

(** ** The macOS working-directory bootstrap *)

Module MacOSFacts.
Import Ascii CInt CIntFacts MacOS.

(** The scan returns the last slash below [k], if there is one. *)
Lemma scanBack_some s k i :
  scanBack s k = Some i ->
  (i < k)%nat /\ nth i s zero = slash /\
  forall j, (i < j < k)%nat -> nth j s zero <> slash.
Proof.
  induction k as [|k IH]; intros H; cbn [scanBack] in H; [discriminate H|].
  destruct (Ascii.eqb (nth k s zero) slash) eqn:Hk.
  - injection H as <-. apply Ascii.eqb_eq in Hk.
    split; [lia|]. split; [exact Hk|]. intros j Hj. lia.
  - destruct (IH H) as (Hlt & Hs & Hn).
    split; [lia|]. split; [exact Hs|].
    intros j Hj. destruct (Nat.eq_dec j k) as [->|Hne].
    + apply Ascii.eqb_neq. exact Hk.
    + apply Hn. lia.
Qed.

Lemma scanBack_none s k :
  scanBack s k = None -> forall j, (j < k)%nat -> nth j s zero <> slash.
Proof.
  induction k as [|k IH]; intros H j Hj; [lia|].
  cbn [scanBack] in H.
  destruct (Ascii.eqb (nth k s zero) slash) eqn:Hk; [discriminate H|].
  destruct (Nat.eq_dec j k) as [->|Hne].
  - apply Ascii.eqb_neq. exact Hk.
  - apply (IH H). lia.
Qed.

Lemma skipn_cons_nth (s : list ascii) i :
  (i < List.length s)%nat -> skipn i s = nth i s zero :: skipn (S i) s.
Proof.
  revert i. induction s as [|c s IH]; intros i Hi; [cbn in Hi; lia|].
  destruct i as [|i]; [reflexivity|].
  cbn [skipn nth]. apply IH. cbn in Hi. lia.
Qed.

Lemma cutProgramName_split s :
  Z.of_nat (List.length s) < 2147483648 ->
  nth 0 s zero = slash ->
  exists file, s = cutProgramName s ++ slash :: file /\ ~ In slash file.
Proof.
  intros Hlen Hroot. unfold cutProgramName.
  rewrite to_int32_small by lia. rewrite Nat2Z.id.
  assert (Hne : (0 < List.length s)%nat).
  { destruct s; [|cbn; lia]. cbn in Hroot. discriminate Hroot. }
  destruct (scanBack s (List.length s)) as [i|] eqn:Hscan.
  - destruct (scanBack_some s _ i Hscan) as (Hlt & Hs & Hn).
    exists (skipn (S i) s). split.
    + rewrite <- Hs. rewrite <- skipn_cons_nth by exact Hlt.
      symmetry. apply firstn_skipn.
    + intros Hin.
      destruct (In_nth _ _ zero Hin) as (n & Hn1 & Hn2).
      rewrite nth_skipn in Hn2. rewrite length_skipn in Hn1.
      apply (Hn (S i + n)%nat); [lia | exact Hn2].
  - exfalso. apply (scanBack_none s _ Hscan 0%nat Hne). exact Hroot.
Qed.

(** X17. Started through an absolute path (as from the Finder), the
    bootstrap splits [argv[0]] at its last slash: the directory it changes
    to, followed by a slash and a file name without slash, is the path; it
    then moves three levels up and frees its copy.  When [strdup] fails it
    changes nothing.  The path is shorter than 2^31 characters. *)
Theorem bootstrap_enters_program_dir (s : list ascii) :
  Z.of_nat (List.length s) < 2147483648 ->
  nth 0 s zero = slash ->
  exists dir file,
    s = dir ++ slash :: file /\
    ~ In slash file /\
    osxSetDirToProgramDirFromArgs (Some s) true
      = [Strdup; Chdir dir; Chdir upThree; Free] /\
    osxSetDirToProgramDirFromArgs (Some s) false = [Strdup].
Proof.
  intros Hlen Hroot.
  destruct (cutProgramName_split s Hlen Hroot) as (file & Hs & Hfile).
  exists (cutProgramName s), file.
  split; [exact Hs|]. split; [exact Hfile|].
  unfold osxSetDirToProgramDirFromArgs. rewrite Hroot.
  split; reflexivity.
Qed.

Lemma bootstrap_enters_program_dir_witness :
  exists dir file,
    list_ascii_of_string "/Apps/pal.app/Contents/MacOS/pal"
      = dir ++ slash :: file /\
    ~ In slash file /\
    osxSetDirToProgramDirFromArgs
      (Some (list_ascii_of_string "/Apps/pal.app/Contents/MacOS/pal")) true
      = [Strdup; Chdir dir; Chdir upThree; Free] /\
    osxSetDirToProgramDirFromArgs
      (Some (list_ascii_of_string "/Apps/pal.app/Contents/MacOS/pal")) false
      = [Strdup].
Proof.
  apply (bootstrap_enters_program_dir
           (list_ascii_of_string "/Apps/pal.app/Contents/MacOS/pal"));
    [vm_compute; reflexivity | reflexivity].
Defined.

(** Started from a terminal through a relative path, or with a null
    [argv[0]], the bootstrap makes no call at all. *)
Lemma bootstrap_skips_relative_path (s : list ascii) (strdup_ok : bool) :
  nth 0 s zero <> slash ->
  osxSetDirToProgramDirFromArgs (Some s) strdup_ok = [] /\
  osxSetDirToProgramDirFromArgs None strdup_ok = [].
Proof.
  intros H. unfold osxSetDirToProgramDirFromArgs.
  apply Ascii.eqb_neq in H. rewrite H. split; reflexivity.
Qed.

Example bootstrap_sample :
  osxSetDirToProgramDirFromArgs
    (Some (list_ascii_of_string "/Apps/pal.app/Contents/MacOS/pal")) true
  = [Strdup;
     Chdir (list_ascii_of_string "/Apps/pal.app/Contents/MacOS");
     Chdir (list_ascii_of_string "../../../"); Free].
Proof. vm_compute. reflexivity. Qed.

End MacOSFacts.
